(** * Benchmark drivers: ELKI PCA and mlpack GMM

    A shallow embedding of [methods/elki/pca.py] and [methods/mlpack/gmm.py].

    The two classes drive an external executable, capture its output and
    extract a timing with a regular expression.  The embedding follows the
    Python text: methods are computations in a state-and-exception monad
    whose state holds the caller's options dictionary (which
    [process_options] mutates in place), the trace of [Log] calls and the
    trace of commands handed to [subprocess.check_output].

    The pieces of the Python runtime the methods rely on are modelled from
    their documented behaviour:
    - [float]: correctly rounded conversion of a decimal numeral to binary64
      (module [Float], on top of the Standard Library's [SpecFloat]);
    - [bytes.decode] (strict UTF-8), the [\d] and [\s] classes of a [str]
      pattern (module [Unicode], tables of Unicode 14.0.0);
    - [re]: a backtracking matcher for the constructs the patterns use
      (module [Re]);
    - [shlex.split] in POSIX mode (module [Shlex]);
    - [subprocess.check_output] against a description of what the child
      process does (module [Subprocess]). *)

From Stdlib Require Import ZArith NArith QArith String Ascii List DecimalString.
From Stdlib Require Import Floats.SpecFloat.
From stdpp Require Import gmap strings list.

Local Open Scope Z_scope.

(** Byte strings and decoded text are sequences of code units: values below
    256 for [bytes], Unicode code points for [str]. *)
Abbreviation bytes := (list N).
Abbreviation text := (list N).

Definition codes (s : string) : list N :=
  map N_of_ascii (list_ascii_of_string s).

(** ** Binary64 numbers and [float(...)] *)
Module Float.

Definition prec : Z := 53.
Definition emax : Z := 1024.

Definition float := spec_float.

(** The binary64 nearest to [(-1)^neg * m * 10^e] (ties to even), which is
    what [float] returns for a decimal numeral. *)
Definition of_decimal (neg : bool) (m : N) (e : Z) : float :=
  match m with
  | N0 => S754_zero neg
  | Npos p =>
      if 0 <=? e
      then binary_normalize prec emax
             ((if neg then Z.neg p else Z.pos p) * 10 ^ e) 0 false
      else SFdiv prec emax (S754_finite neg p 0)
             (S754_finite false (Z.to_pos (10 ^ (- e))) 0)
  end.

Definition of_N (n : N) : float := of_decimal false n 0.

(** Python's [x / y] on floats with a non-zero divisor. *)
Definition div (x y : float) : float := SFdiv prec emax x y.

Definition is_digit (c : N) : bool := (48 <=? c)%N && (c <=? 57)%N.

(** [Py_ISSPACE]: space, \t, \n, \v, \f, \r. *)
Definition is_space (c : N) : bool :=
  ((9 <=? c)%N && (c <=? 13)%N) || (c =? 32)%N.

(** Underscores are allowed between two digits only; they are removed
    before the numeral is read. [prev] is the previous character. *)
Fixpoint strip_underscores (prev : N) (s : list N) : option (list N) :=
  match s with
  | [] => if (prev =? 95)%N then None else Some []
  | c :: s' =>
      if (c =? 95)%N then
        if is_digit prev then strip_underscores c s' else None
      else if (prev =? 95)%N && negb (is_digit c) then None
      else cons c <$> strip_underscores c s'
  end.

(** A maximal run of digits: its value (continuing [acc]), the number of
    digits read (continuing [n]) and what follows. *)
Fixpoint read_digits (acc : N) (n : nat) (s : list N) : N * nat * list N :=
  match s with
  | c :: s' =>
      if is_digit c then read_digits (acc * 10 + (c - 48))%N (S n) s'
      else (acc, n, s)
  | [] => (acc, n, [])
  end.

Definition lower (c : N) : N :=
  if (65 <=? c)%N && (c <=? 90)%N then (c + 32)%N else c.

Fixpoint drop_spaces (s : list N) : list N :=
  match s with
  | c :: s' => if is_space c then drop_spaces s' else s
  | [] => []
  end.

Definition read_sign (s : list N) : bool * list N :=
  match s with
  | 43%N :: s' => (false, s')
  | 45%N :: s' => (true, s')
  | _ => (false, s)
  end.

(** The optional exponent part: [e] or [E], an optional sign and at least
    one digit.  When no digit follows, nothing is consumed. *)
Definition read_exponent (s : list N) : Z * list N :=
  match s with
  | c :: s' =>
      if (lower c =? 101)%N then
        let '(neg, s1) := read_sign s' in
        let '(v, n, s2) := read_digits 0 0 s1 in
        match n with
        | O => (0, s)
        | S _ => ((if neg then - Z.of_N v else Z.of_N v), s2)
        end
      else (0, s)
  | [] => (0, [])
  end.

(** [inf], [infinity] and [nan], in any letter case. *)
Definition read_special (neg : bool) (s : list N) : option (float * list N) :=
  let l := map lower s in
  if decide (take 8 l = codes "infinity") then Some (S754_infinity neg, drop 8 s)
  else if decide (take 3 l = codes "inf") then Some (S754_infinity neg, drop 3 s)
  else if decide (take 3 l = codes "nan") then Some (S754_nan, drop 3 s)
  else None.

Definition read_number (neg : bool) (s : list N) : option (float * list N) :=
  let '(ip, n1, s1) := read_digits 0 0 s in
  let '(m, n2, s2) :=
    match s1 with
    | 46%N :: s1' =>
        let '(m, n, s2) := read_digits ip 0 s1' in (m, n, s2)
    | _ => (ip, O, s1)
    end in
  match (n1 + n2)%nat with
  | O => None
  | S _ =>
      let '(e, s3) := read_exponent s2 in
      Some (of_decimal neg m (e - Z.of_nat n2), s3)
  end.

(** [float(s)] for an ASCII argument ([bytes], or a [str] after
    [to_ascii] below); [None] stands for [ValueError]. *)
Definition parse (s : list N) : option float :=
  s0 ← strip_underscores 0%N s;
  let '(neg, s1) := read_sign (drop_spaces s0) in
  '(x, rest) ← match read_special neg s1 with
               | Some r => Some r
               | None => read_number neg s1
               end;
  match drop_spaces rest with
  | [] => Some x
  | _ :: _ => None
  end.

End Float.

(** ** Text: UTF-8 decoding and the character classes of [str] patterns *)
Module Unicode.

Definition between (lo hi c : N) : bool := (lo <=? c)%N && (c <=? hi)%N.

Definition cont (b : N) : bool := between 128 191 b.

(** [bytes.decode()]: strict UTF-8 (no overlong forms, no surrogates,
    nothing above U+10FFFF); [None] stands for [UnicodeDecodeError]. *)
Fixpoint decode (bs : bytes) : option text :=
  match bs with
  | [] => Some []
  | b0 :: r0 =>
      if (b0 <? 128)%N then cons b0 <$> decode r0
      else if between 194 223 b0 then
        match r0 with
        | b1 :: r1 =>
            if cont b1
            then cons ((b0 - 192) * 64 + (b1 - 128))%N <$> decode r1
            else None
        | _ => None
        end
      else if between 224 239 b0 then
        match r0 with
        | b1 :: b2 :: r2 =>
            if between (if (b0 =? 224)%N then 160 else 128)
                       (if (b0 =? 237)%N then 159 else 191) b1 && cont b2
            then cons ((b0 - 224) * 4096 + (b1 - 128) * 64 + (b2 - 128))%N
                   <$> decode r2
            else None
        | _ => None
        end
      else if between 240 244 b0 then
        match r0 with
        | b1 :: b2 :: b3 :: r3 =>
            if between (if (b0 =? 240)%N then 144 else 128)
                       (if (b0 =? 244)%N then 143 else 191) b1
               && cont b2 && cont b3
            then cons ((b0 - 240) * 262144 + (b1 - 128) * 4096
                       + (b2 - 128) * 64 + (b3 - 128))%N <$> decode r3
            else None
        | _ => None
        end
      else None
  end.

(** General category Nd: each entry is the code point of a digit zero and
    the length of the run of digits starting there (runs hold the digits
    0 to 9 in order, possibly several times over). *)
Definition decimal_runs : list (N * N) :=
  [(48, 10); (1632, 10); (1776, 10); (1984, 10); (2406, 10); (2534, 10);
   (2662, 10); (2790, 10); (2918, 10); (3046, 10); (3174, 10); (3302, 10);
   (3430, 10); (3558, 10); (3664, 10); (3792, 10); (3872, 10); (4160, 10);
   (4240, 10); (6112, 10); (6160, 10); (6470, 10); (6608, 10); (6784, 10);
   (6800, 10); (6992, 10); (7088, 10); (7232, 10); (7248, 10); (42528, 10);
   (43216, 10); (43264, 10); (43472, 10); (43504, 10); (43600, 10);
   (44016, 10); (65296, 10); (66720, 10); (68912, 10); (69734, 10);
   (69872, 10); (69942, 10); (70096, 10); (70384, 10); (70736, 10);
   (70864, 10); (71248, 10); (71360, 10); (71472, 10); (71904, 10);
   (72016, 10); (72784, 10); (73040, 10); (73120, 10); (92768, 10);
   (92864, 10); (93008, 10); (120782, 50); (123200, 10); (123632, 10);
   (125264, 10); (130032, 10)]%N.

(** The decimal value of a character, when it has one. *)
Fixpoint decimal_in (runs : list (N * N)) (c : N) : option N :=
  match runs with
  | [] => None
  | (start, len) :: runs' =>
      if (start <=? c)%N && (c <? start + len)%N
      then Some ((c - start) mod 10)%N
      else decimal_in runs' c
  end.

Definition decimal (c : N) : option N := decimal_in decimal_runs c.

(** [\d] in a [str] pattern. *)
Definition isdecimal (c : N) : bool :=
  match decimal c with Some _ => true | None => false end.

(** [\s] in a [str] pattern. *)
Definition isspace (c : N) : bool :=
  between 9 13 c || between 28 32 c || (c =? 133)%N || (c =? 160)%N
  || (c =? 5760)%N || between 8192 8202 c || between 8232 8233 c
  || (c =? 8239)%N || (c =? 8287)%N || (c =? 12288)%N.

(** What [float] does to a [str] argument before reading it: characters
    below 127 are kept, other spaces become a blank, other decimal digits
    their ASCII digit; at the first other character a [?] is written and
    the rest is dropped. *)
Fixpoint to_ascii (s : text) : list N :=
  match s with
  | [] => []
  | c :: s' =>
      if (c <? 127)%N then c :: to_ascii s'
      else if isspace c then 32%N :: to_ascii s'
      else match decimal c with
           | Some d => (48 + d)%N :: to_ascii s'
           | None => [63%N]
           end
  end.

(** [float(s)] for a [str]. *)
Definition float_of_text (s : text) : option Float.float :=
  Float.parse (to_ascii s).

End Unicode.

(** ** Regular expressions

    The patterns of the two classes are sequences of single-character
    classes and of greedy or lazy repetitions of a single-character class,
    with one capturing group.  The matcher tries the alternatives in the
    order of a backtracking engine and returns the first success, as
    [pattern.match] does (anchored at the start of the subject). *)
Module Re.

Inductive item :=
| One (c : N → bool)                       (* a character of the class *)
| Many (greedy : bool) (c : N → bool).     (* c* or c*? *)

Section Matcher.
Context {R : Type}.

(** [c*?] followed by [k]: first try [k], then one more character. *)
Fixpoint lazy_star (c : N → bool) (k : list N → option R) (s : list N)
  : option R :=
  match k s with
  | Some r => Some r
  | None =>
      match s with
      | x :: s' => if c x then lazy_star c k s' else None
      | [] => None
      end
  end.

(** [c*] followed by [k]: take as many characters as possible, then give
    them back one at a time. *)
Fixpoint greedy_star (c : N → bool) (k : list N → option R) (s : list N)
  : option R :=
  match s with
  | x :: s' =>
      if c x then
        match greedy_star c k s' with
        | Some r => Some r
        | None => k s
        end
      else k s
  | [] => k s
  end.

Fixpoint match_items (p : list item) (k : list N → option R) (s : list N)
  : option R :=
  match p with
  | [] => k s
  | One c :: p' =>
      match s with
      | x :: s' => if c x then match_items p' k s' else None
      | [] => None
      end
  | Many true c :: p' => greedy_star c (match_items p' k) s
  | Many false c :: p' => lazy_star c (match_items p' k) s
  end.
End Matcher.

(** A pattern [before (inside) after] with its one capturing group. *)
Record pattern := { before : list item; inside : list item; after : list item }.

Definition any : N → bool := fun _ => true.          (* [.] under DOTALL *)
Definition chr (a : N) : N → bool := N.eqb a.
Definition lit (s : string) : list item := map (fun a => One (chr a)) (codes s).

(** [pattern.match(s)]: the text of the group of the first match found. *)
Definition group_of_match (p : pattern) (s : list N) : option (list N) :=
  match_items (before p)
    (fun s1 =>
       match_items (inside p)
         (fun s2 =>
            match_items (after p)
              (fun _ => Some (take (length s1 - length s2) s1)) s2) s1) s.

End Re.

(** ** [shlex.split]

    POSIX mode, split on whitespace only, no comment characters: the state
    machine of [shlex.read_token].  [Between] is its state [' '], [Word] its
    state ['a'], [Quote q] a quote state and [Escape back] the escape state
    with [escapedstate = back]. *)
Module Shlex.

Inductive mode := Between | Word | Quote (q : ascii) | Escape (back : mode).

Inductive error := NoClosingQuotation | NoEscapedCharacter.

Definition whitespace (c : ascii) : bool :=
  bool_decide (c ∈ [" "; "009"; "013"; "010"]%char).
Definition quote (c : ascii) : bool := bool_decide (c ∈ ["'"; "034"]%char).
Definition escape (c : ascii) : bool := bool_decide (c = "092"%char).

Definition snoc (tok : string) (c : ascii) : string := tok +:+ String c EmptyString.

(** A token is produced unless it is empty and was never quoted. *)
Definition emit (tok : string) (quoted : bool) (acc : list string) : list string :=
  if bool_decide (tok = EmptyString) && negb quoted then acc else acc ++ [tok].

Fixpoint tokens (m : mode) (tok : string) (quoted : bool)
    (acc : list string) (s : string) : error + list string :=
  match s with
  | EmptyString =>
      match m with
      | Between => inr acc
      | Word => inr (emit tok quoted acc)
      | Quote _ => inl NoClosingQuotation
      | Escape _ => inl NoEscapedCharacter
      end
  | String c s' =>
      match m with
      | Between =>
          if whitespace c then tokens Between EmptyString false acc s'
          else if escape c then tokens (Escape Word) EmptyString false acc s'
          else if quote c then tokens (Quote c) EmptyString true acc s'
          else tokens Word (String c EmptyString) false acc s'
      | Word =>
          if whitespace c then tokens Between EmptyString false (emit tok quoted acc) s'
          else if quote c then tokens (Quote c) tok true acc s'
          else if escape c then tokens (Escape Word) tok quoted acc s'
          else tokens Word (snoc tok c) quoted acc s'
      | Quote q =>
          if bool_decide (c = q) then tokens Word tok true acc s'
          else if escape c && bool_decide (q = "034"%char)
          then tokens (Escape (Quote q)) tok true acc s'
          else tokens (Quote q) (snoc tok c) true acc s'
      | Escape back =>
          let tok' :=
            match back with
            | Quote q =>
                if negb (escape c) && negb (bool_decide (c = q))
                then snoc tok "092"%char else tok
            | _ => tok
            end in
          tokens back (snoc tok' c) quoted acc s'
      end
  end.

Definition split (s : string) : error + list string :=
  tokens Between EmptyString false [] s.

End Shlex.

(** ** The Python runtime the methods run in *)

(** Option values of a configuration map. *)
Inductive pyvalue :=
| PyNone
| PyBool (b : bool)
| PyInt (z : Z)
| PyStr (s : string).

(** [str(v)]. *)
Definition py_str (v : pyvalue) : string :=
  match v with
  | PyNone => "None"
  | PyBool true => "True"
  | PyBool false => "False"
  | PyInt z => NilZero.string_of_int (Z.to_int z)
  | PyStr s => s
  end.

Inductive exn :=
| Exception (msg : string)
| TypeError
| ValueError (msg : string)
| AttributeError (name : string)
| IndexError
| UnicodeDecodeError
| OSError
| CalledProcessError (status : Z) (cmd : list string) (output : bytes)
| TimeoutExpired (cmd : list string) (timeout : Q).

(** The levels and the messages of the calls of [Log]; a message made from
    a value keeps the value. *)
Inductive level := Info | Warn | Fatal.

Inductive message :=
| Msg (s : string)
| MsgUnknownParameters (options : gmap string pyvalue)
    (* "Unknown parameters: " + str(options) *)
| MsgCouldNotExecute (cmd : list string)
    (* "Could not execute command: " + str(cmd) *)
| MsgException (e : exn)
    (* str(e) *)
| MsgTotalTime (t : Float.float).
    (* "total time: %fs" % t *)

Record log_call := LogCall {
  log_level : level;
  log_message : message;
  log_verbose : option bool   (* the second argument, when one is given *)
}.

(** The state a method call runs in. *)
Record state := State {
  options : gmap string pyvalue;   (* the dict object passed as [options] *)
  log : list log_call;             (* calls of [Log], oldest first *)
  runs : list (list string)        (* commands given to [check_output] *)
}.

(** How a call ends: with a value, with an exception, or not at all. *)
Inductive outcome (A : Type) :=
| Ret (a : A)
| Raise (e : exn)
| Blocked.
Arguments Ret {A} a.
Arguments Raise {A} e.
Arguments Blocked {A}.

Definition M (A : Type) : Type := state → outcome A * state.

Definition ret {A} (a : A) : M A := fun st => (Ret a, st).
Definition raise {A} (e : exn) : M A := fun st => (Raise e, st).
Definition bind {A B} (m : M A) (k : A → M B) : M B :=
  fun st =>
    match m st with
    | (Ret a, st') => k a st'
    | (Raise e, st') => (Raise e, st')
    | (Blocked, st') => (Blocked, st')
    end.

(** [try: m  except ...: h e]: [h] returns the handler of the first
    [except] clause that matches the exception, if any. *)
Definition try_except {A} (m : M A) (h : exn → option (M A)) : M A :=
  fun st =>
    match m st with
    | (Raise e, st') =>
        match h e with
        | Some handler => handler st'
        | None => (Raise e, st')
        end
    | r => r
    end.

Declare Scope py_scope.
Delimit Scope py_scope with py.
Notation "x <- m ;; k" := (bind m (fun x => k))
  (at level 100, m at next level, right associativity) : py_scope.
Notation "m ;; k" := (bind m (fun _ => k))
  (at level 100, right associativity) : py_scope.

Definition get_options : M (gmap string pyvalue) := fun st => (Ret (options st), st).
Definition set_options (o : gmap string pyvalue) : M unit :=
  fun st => (Ret tt, State o (log st) (runs st)).

Module Log.

(** Modelled from the spec: the class [Log] of [util/log.py], which the two
    classes import and which is not among the sources.  The spec treats
    logging as a channel that failures are reported through before the
    call goes on ("converted to a logged message plus a sentinel return
    value", "logged, never raised"): a call of [Log.Info], [Log.Warn] or
    [Log.Fatal] records its arguments and returns to its caller; what it
    prints is not modelled. *)
Definition call (l : level) (m : message) (v : option bool) : M unit :=
  fun st => (Ret tt, State (options st) (log st ++ [LogCall l m v]) (runs st)).
Definition Info (m : message) (verbose : bool) : M unit := call Info m (Some verbose).
Definition Warn (m : message) (verbose : option bool) : M unit := call Warn m verbose.
Definition Fatal (m : message) : M unit := call Fatal m None.

End Log.

(** ** [subprocess.check_output] *)
Module Subprocess.

(** What the child process started for a command does. *)
Inductive child :=
| NotStarted                                   (* the launch fails *)
| Exits (elapsed : Q) (status : Z) (output : bytes)
    (* ends after [elapsed] seconds with this exit status, having written
       [output] to its standard output and standard error *)
| Hangs.                                       (* never ends *)

(** [check_output(cmd, stderr=STDOUT, shell=False, timeout=timeout)].
    With [timeout=None] the call waits for the child for ever.  A number is
    a window in seconds, measured from the start of the wait: the child
    must end before the window has passed, so a window of zero seconds
    (or less) has passed for every child.  The command is recorded before
    anything else happens. *)
Definition check_output (os : list string → child) (cmd : list string)
    (timeout : option Q) : M bytes :=
  fun st =>
    let st' := State (options st) (log st) (runs st ++ [cmd]) in
    match cmd with
    | [] => (Raise IndexError, st')
    | _ :: _ =>
        match os cmd with
        | NotStarted => (Raise OSError, st')
        | Exits elapsed status output =>
            match timeout with
            | Some t =>
                if Qle_bool t elapsed then (Raise (TimeoutExpired cmd t), st')
                else if status =? 0 then (Ret output, st')
                else (Raise (CalledProcessError status cmd output), st')
            | None =>
                if status =? 0 then (Ret output, st')
                else (Raise (CalledProcessError status cmd output), st')
            end
        | Hangs =>
            match timeout with
            | Some t => (Raise (TimeoutExpired cmd t), st')
            | None => (Blocked, st')
            end
        end
    end.

End Subprocess.

(** ** [os.path.isfile] and [os.remove]

    The entries of the working directory, by name.  A regular file can be
    removed when the directory permits it; [removable] records that. *)
Module Os.

Inductive node :=
| Regular (removable : bool)
| Directory.

Definition isfile (fs : gmap string node) (f : string) : bool :=
  match fs !! f with
  | Some (Regular _) => true
  | _ => false
  end.

(** [os.remove(f)]: the directory without [f], or an [OSError]
    (the file is missing, is a directory, or may not be removed). *)
Definition remove (fs : gmap string node) (f : string) : exn + gmap string node :=
  match fs !! f with
  | Some (Regular true) => inr (delete f fs)
  | _ => inl OSError
  end.

End Os.

Import Subprocess.
Local Open Scope py_scope.

(** The value a [parseTimer] method returns: its one-field namedtuple
    [timer], or an [int]. *)
Inductive parsed :=
| Timer (field : Float.float)
| IntValue (z : Z).

(** ** [methods/elki/pca.py] *)
Module PCA.

Record t := {
  verbose : bool;
  dataset : string;
  path : string;
  timeout : Q
}.

(** [__init__(self, dataset, timeout=0, path=os.environ["JAVAPATH"],
    verbose=True)]; [javapath] is the value of the environment variable
    when the class is defined. *)
Definition init (javapath : string) (dataset : string) (timeout : option Q)
    (path : option string) (verbose : option bool) : t :=
  {| verbose := default true verbose;
     dataset := dataset;
     path := default javapath path;
     timeout := default 0%Q timeout |}.

Definition process_options (self : t) : M (list string) :=
  options0 <- get_options ;;
  opts1 <- (if decide (is_Some (options0 !! "whiten"))
            then set_options (delete "whiten" options0) ;;
                 ret ["-dbc.filter";
                      "normalization.columnwise.AttributeWiseVarianceNormalization,transform.GlobalPrincipalComponentAnalysisTransform"]
            else ret ["-dbc.filter";
                      "transform.GlobalPrincipalComponentAnalysisTransform"]) ;;
  options1 <- get_options ;;
  opts2 <- match options1 !! "new_dimensionality" with
           | Some v =>
               set_options (delete "new_dimensionality" options1) ;;
               ret (opts1 ++ ["-globalpca.filter"; "FirstNEigenPairFilter";
                              "-pca.filter.n"; py_str v])
           | None => ret opts1
           end ;;
  options2 <- get_options ;;
  if (0 <? size options2)%nat
  then Log.Fatal (MsgUnknownParameters options2) ;;
       raise (Exception "unknown parameters")
  else ret opts2.

(** [.*?datasource[^\s]*\.load:\s*(?P<total_time>\d+)\s*ms.*?] on a
    [str], with DOTALL. *)
Definition pattern : Re.pattern :=
  {| Re.before :=
       Re.Many false Re.any :: Re.lit "datasource"
       ++ Re.Many true (fun c => negb (Unicode.isspace c)) :: Re.lit ".load:"
       ++ [Re.Many true Unicode.isspace];
     Re.inside := [Re.One Unicode.isdecimal; Re.Many true Unicode.isdecimal];
     Re.after :=
       Re.Many true Unicode.isspace :: Re.lit "ms" ++ [Re.Many false Re.any] |}.

(** [s.count(c)] and [s.replace(a, b)] for one-character arguments. *)
Definition count (c : N) (s : text) : nat := length (filter (eq c) s).
Definition replace (a b : N) (s : text) : text :=
  map (fun c => if (c =? a)%N then b else c) s.

Definition float (s : text) : M Float.float :=
  match Unicode.float_of_text s with
  | Some x => ret x
  | None => raise (ValueError "could not convert string to float")
  end.

(** The value stored in the namedtuple for a captured group. *)
Definition total_time_of (group : text) : M Float.float :=
  if decide (count 46%N group = 1%nat)
  then x <- float group ;; ret (Float.div x (Float.of_N 1000))
  else x <- float (replace 44%N 46%N group) ;; ret (Float.div x (Float.of_N 1000)).

Definition parseTimer (self : t) (data : bytes) : M parsed :=
  match Unicode.decode data with
  | None => raise UnicodeDecodeError
  | Some s =>
      match Re.group_of_match pattern s with
      | None =>
          Log.Fatal (Msg "Can't parse the data: wrong format") ;;
          ret (IntValue (-1))
      | Some group =>
          x <- total_time_of group ;; ret (Timer x)
      end
  end.

(** [timer != z] and [timer.total_time]. *)
Definition differs (timer : parsed) (z : Z) : bool :=
  match timer with
  | Timer _ => true
  | IntValue z' => negb (z' =? z)
  end.

Definition total_time (timer : parsed) : M Float.float :=
  match timer with
  | Timer x => ret x
  | IntValue _ => raise (AttributeError "total_time")
  end.

(** What [RunMetrics] returns: the metrics dict or an [int]. *)
Inductive result :=
| Metrics (m : gmap string Float.float)
| Code (z : Z).

Definition command (self : t) (opts : list string) : list string :=
  ["java"; "-jar"; path self +:+ "elki.jar"; "cli"; "-time"; "-dbc.in";
   dataset self; "-algorithm"; "NullAlgorithm"; "-resulthandler";
   "DiscardResultHandler"] ++ opts.

Definition RunMetrics (os : list string → child) (self : t) : M result :=
  Log.Info (Msg "Perform PCA.") (verbose self) ;;
  opts <- process_options self ;;
  let cmd := command self opts in
  r <- try_except
         (s <- check_output os cmd (Some (timeout self)) ;; ret (inl s))
         (fun e =>
            match e with
            | TimeoutExpired _ _ =>
                Some (Log.Warn (MsgException e) None ;; ret (inr (Code (-2))))
            | _ =>
                Some (Log.Fatal (MsgCouldNotExecute cmd) ;; ret (inr (Code (-1))))
            end) ;;
  match r with
  | inr code => ret code
  | inl s =>
      let metrics : gmap string Float.float := ∅ in
      timer <- parseTimer self s ;;
      if differs timer (-1)
      then
        x <- total_time timer ;;
        let metrics := <["Runtime" := x]> metrics in
        Log.Info (MsgTotalTime x) (verbose self) ;;
        ret (Metrics metrics)
      else ret (Metrics metrics)
  end.

End PCA.

(** ** [methods/mlpack/gmm.py] *)
Module GMM.

(** The [description] attribute holds the [bytes] of the first group, or
    the [str] [""] when the help text does not match. *)
Inductive description_value :=
| DescBytes (b : bytes)
| DescStr (s : string).

Record t := {
  verbose : bool;
  dataset : string;
  path : string;
  timeout : Q;
  debug : string;
  description : option description_value   (* [None]: attribute not set *)
}.

(** The names the class body defines. *)
Definition methods : list string :=
  ["__init__"; "__del__"; "RunMemoryProfiling"; "RunTiming"; "parseTimer";
   "GetTime"].

Definition split (line : string) : M (list string) :=
  match Shlex.split line with
  | inr cmd => ret cmd
  | inl Shlex.NoClosingQuotation => raise (ValueError "No closing quotation")
  | inl Shlex.NoEscapedCharacter => raise (ValueError "No escaped character")
  end.

(** [(.*?)Required.*?options:] on [bytes], with DOTALL. *)
Definition description_pattern : Re.pattern :=
  {| Re.before := [];
     Re.inside := [Re.Many false Re.any];
     Re.after := Re.lit "Required" ++ Re.Many false Re.any :: Re.lit "options:" |}.

(** [__init__(self, dataset, timeout=0, path=os.environ["MLPACK_BIN"],
    verbose=True, debug=os.environ["MLPACK_BIN_DEBUG"])]. *)
Definition init (os : list string → child) (mlpack_bin mlpack_bin_debug : string)
    (dataset : string) (timeout : option Q) (path : option string)
    (verbose : option bool) (debug : option string) : M t :=
  let self d :=
    {| verbose := default true verbose;
       dataset := dataset;
       path := default mlpack_bin path;
       timeout := default 0%Q timeout;
       debug := default mlpack_bin_debug debug;
       description := d |} in
  cmd <- split (default mlpack_bin path +:+ "gmm -h") ;;
  r <- try_except
         (s <- check_output os cmd None ;; ret (Some s))
         (fun e => Some (Log.Fatal (MsgCouldNotExecute cmd) ;; ret None)) ;;
  match r with
  | None => ret (self None)
  | Some s =>
      match Re.group_of_match description_pattern s with
      | None =>
          Log.Warn (Msg "Can't parse description") (Some (default true verbose)) ;;
          ret (self (Some (DescStr EmptyString)))
      | Some group => ret (self (Some (DescBytes group)))
      end
  end.

(** The pattern is compiled with VERBOSE, which drops the blanks and line
    breaks written in it: [.*?em:(?P<em>.*?)s.*?] on [bytes], with
    DOTALL. *)
Definition pattern : Re.pattern :=
  {| Re.before := Re.Many false Re.any :: Re.lit "em:";
     Re.inside := [Re.Many false Re.any];
     Re.after := Re.lit "s" ++ [Re.Many false Re.any] |}.

Definition float (s : bytes) : M Float.float :=
  match Float.parse s with
  | Some x => ret x
  | None => raise (ValueError "could not convert string to float")
  end.

Definition parseTimer (self : t) (data : bytes) : M parsed :=
  match Re.group_of_match pattern data with
  | None =>
      Log.Fatal (Msg "Can't parse the data: wrong format") ;;
      ret (IntValue (-1))
  | Some group => x <- float group ;; ret (Timer x)
  end.

(** [timer.em]. *)
Definition GetTime (self : t) (timer : parsed) : M Float.float :=
  match timer with
  | Timer em => ret em
  | IntValue _ => raise (AttributeError "em")
  end.

(** [not timer]: a one-field tuple is true, an [int] is true unless it is
    zero. *)
Definition not_ (timer : parsed) : bool :=
  match timer with
  | Timer _ => false
  | IntValue z => z =? 0
  end.

(** The argument passed as [options]. *)
Inductive argument :=
| Value (v : pyvalue)
| Dict (d : gmap string pyvalue).

(** [prefix + options] for a [str] prefix. *)
Definition concat (prefix : string) (options : argument) : M string :=
  match options with
  | Value (PyStr o) => ret (prefix +:+ o)
  | _ => raise TypeError
  end.

(** What [RunTiming] returns: the elapsed time or an [int]. *)
Inductive result :=
| Time (t : Float.float)
| Code (z : Z).

Definition RunTiming (os : list string → child) (self : t)
    (options : argument) : M result :=
  Log.Info (Msg "Perform GMM.") (verbose self) ;;
  line <- concat (path self +:+ "gmm -i " +:+ dataset self +:+ " -v ") options ;;
  cmd <- split line ;;
  r <- try_except
         (s <- check_output os cmd (Some (timeout self)) ;; ret (inl s))
         (fun e =>
            match e with
            | TimeoutExpired _ _ =>
                Some (Log.Warn (MsgException e) None ;; ret (inr (Code (-2))))
            | _ =>
                Some (Log.Fatal (MsgCouldNotExecute cmd) ;; ret (inr (Code (-1))))
            end) ;;
  match r with
  | inr code => ret code
  | inl s =>
      timer <- parseTimer self s ;;
      if not_ timer
      then Log.Fatal (Msg "Can't parse the timer") ;; ret (Code (-1))
      else
        time <- GetTime self timer ;;
        Log.Info (MsgTotalTime time) (verbose self) ;;
        ret (Time time)
  end.

(** [RunMemoryProfiling(self, options, fileName, massifOptions="--depth=2")].
    [Profiler.MassifMemoryUsage] belongs to [util/profiler.py], which is not
    among the sources: it is a parameter of the method. *)
Definition RunMemoryProfiling {A : Type}
    (MassifMemoryUsage : list string → string → Q → string → M A)
    (self : t) (options : argument) (fileName : string)
    (massifOptions : option string) : M A :=
  Log.Info (Msg "Perform GMM Memory Profiling.") (verbose self) ;;
  line <- concat (debug self +:+ "gmm -i " +:+ dataset self +:+ " -v ") options ;;
  cmd <- split line ;;
  MassifMemoryUsage cmd fileName (timeout self) (default "--depth=2" massifOptions).

(** The loop of [__del__] over [filelist]: the way it ends and the
    directory it leaves. *)
Fixpoint remove_files (filelist : list string) (fs : gmap string Os.node)
  : outcome unit * gmap string Os.node :=
  match filelist with
  | [] => (Ret tt, fs)
  | f :: filelist' =>
      if Os.isfile fs f
      then match Os.remove fs f with
           | inr fs' => remove_files filelist' fs'
           | inl e => (Raise e, fs)
           end
      else remove_files filelist' fs
  end.

(** [__del__(self)], on the working directory [fs]. *)
Definition del (self : t) (fs : gmap string Os.node) (st : state)
  : outcome unit * gmap string Os.node * state :=
  match Log.Info (Msg "Clean up.") (verbose self) st with
  | (Ret _, st') => (remove_files ["gmon.out"; "gmm.xml"] fs, st')
  | (Raise e, st') => (Raise e, fs, st')
  | (Blocked, st') => (Blocked, fs, st')
  end.

End GMM.

(** * Vocabulary of the statements *)

(** The words a sequence of pattern items can consume. *)
Inductive consumes : list Re.item → list N → Prop :=
| consumes_nil : consumes [] []
| consumes_one c p x w :
    c x = true → consumes p w → consumes (Re.One c :: p) (x :: w)
| consumes_many g c p a w :
    forallb c a = true → consumes p w → consumes (Re.Many g c :: p) (a ++ w).

(** The integer a run of decimal digits denotes. *)
Definition digits_value (g : text) : N :=
  fold_left (fun acc c => (acc * 10 + default 0 (Unicode.decimal c))%N) g 0%N.

(** The option names [PCA.process_options] knows, what it leaves of a
    configuration map, and the tokens it produces. *)
Definition recognized : gset string := {["whiten"; "new_dimensionality"]}.

Definition remaining (o : gmap string pyvalue) : gmap string pyvalue :=
  delete "new_dimensionality" (delete "whiten" o).

Definition filter_tokens (o : gmap string pyvalue) : list string :=
  match o !! "whiten" with
  | Some _ =>
      ["-dbc.filter";
       "normalization.columnwise.AttributeWiseVarianceNormalization,transform.GlobalPrincipalComponentAnalysisTransform"]
  | None => ["-dbc.filter"; "transform.GlobalPrincipalComponentAnalysisTransform"]
  end.

Definition dimension_tokens (o : gmap string pyvalue) : list string :=
  match o !! "new_dimensionality" with
  | Some v => ["-globalpca.filter"; "FirstNEigenPairFilter"; "-pca.filter.n"; py_str v]
  | None => []
  end.

(** The command [PCA.RunMetrics] runs for a configuration map. *)
Definition pca_command (self : PCA.t) (o : gmap string pyvalue) : list string :=
  PCA.command self (filter_tokens o ++ dimension_tokens o).

(** The command line [GMM.RunTiming] splits for a [str] argument. *)
Definition gmm_line (self : GMM.t) (o : string) : string :=
  (GMM.path self +:+ "gmm -i " +:+ GMM.dataset self +:+ " -v ") +:+ o.

(** States of the tokenizer in which a token is under way, and the states
    it can be in at all. *)
Definition pending (m : Shlex.mode) (tok : string) (quoted : bool) : Prop :=
  match m with
  | Shlex.Between => False
  | Shlex.Word => tok ≠ EmptyString ∨ quoted = true
  | Shlex.Quote _ => True
  | Shlex.Escape (Shlex.Word) | Shlex.Escape (Shlex.Quote _) => True
  | Shlex.Escape _ => False
  end.

Definition wf_mode (m : Shlex.mode) : Prop :=
  match m with
  | Shlex.Escape (Shlex.Word) | Shlex.Escape (Shlex.Quote _) => True
  | Shlex.Escape _ => False
  | _ => True
  end.

(** How the child process of a call fares against a window of [t] seconds. *)
Definition timed_out (c : child) (t : Q) : Prop :=
  match c with
  | Hangs => True
  | Exits elapsed _ _ => (t <= elapsed)%Q
  | NotStarted => False
  end.

Definition crashed (c : child) (t : Q) : Prop :=
  match c with
  | NotStarted => True
  | Exits elapsed status _ => (elapsed < t)%Q ∧ status ≠ 0
  | Hangs => False
  end.

Definition succeeded (c : child) (t : Q) (output : bytes) : Prop :=
  ∃ elapsed, c = Exits elapsed 0 output ∧ (elapsed < t)%Q.

(** A call returns the value [a]. *)
Definition returns {A} (r : outcome A * state) (a : A) : Prop := r.1 = Ret a.

(** Sample objects and child processes for the examples. *)
Definition sample_pca : PCA.t :=
  PCA.init "/opt/elki/" "datasets/iris.csv" (Some 240%Q) None None.

Definition sample_gmm_with (d : option GMM.description_value) : GMM.t :=
  {| GMM.verbose := true;
     GMM.dataset := "datasets/iris.csv";
     GMM.path := "/usr/bin/";
     GMM.timeout := 240%Q;
     GMM.debug := "/usr/bin/debug/";
     GMM.description := d |}.

Definition sample_gmm : GMM.t := sample_gmm_with None.

(** A child process that ends after one second with exit status 0, having
    written [output]. *)
Definition emitting (output : string) : list string → child :=
  fun _ => Exits 1 0 (codes output).

(** An installation of mlpack: [gmm -h] prints the help text at once, any
    other command ends after one second having printed the timers. *)
Definition sample_mlpack : list string → child :=
  fun cmd =>
    if decide (cmd = ["/usr/bin/gmm"; "-h"])
    then Exits 0%Q 0 (codes "Gaussian Mixture Model. Required options: --input_file")
    else Exits 1 0 (codes "em: 0.734s").

(** 1.5, 0.734 and 0.0015 as binary64 numbers. *)
Definition one_and_a_half : Float.float := S754_finite false 6755399441055744 (-52).
Definition f0_734 : Float.float := S754_finite false 6611284252979888 (-53).
Definition f0_0015 : Float.float := S754_finite false 6917529027641082 (-62).

(** The decoded outputs in which [PCA.pattern] can find a timing, and the
    outputs in which [GMM.pattern] can. *)
Definition timer_line (s : text) : Prop :=
  ∃ pre mid ws digits ws' rest,
    s = pre ++ codes "datasource" ++ mid ++ codes ".load:" ++ ws ++ digits
          ++ ws' ++ codes "ms" ++ rest ∧
    forallb (fun c => negb (Unicode.isspace c)) mid = true ∧
    forallb Unicode.isspace ws = true ∧
    digits ≠ [] ∧ forallb Unicode.isdecimal digits = true ∧
    forallb Unicode.isspace ws' = true.

Definition em_line (s : bytes) : Prop :=
  ∃ pre g rest, s = pre ++ codes "em:" ++ g ++ codes "s" ++ rest.

(** The help texts in which [GMM.description_pattern] finds its heading:
    [Required], anything, [options:]. *)
Definition help_heading (b : bytes) : Prop :=
  ∃ m rest, b = codes "Required" ++ m ++ codes "options:" ++ rest.

(** The command line of the probe, of a timing run and of a profiling run. *)
Definition probe_line (mlpack_bin : string) (path : option string) : string :=
  default mlpack_bin path +:+ "gmm -h".

Definition profiling_line (self : GMM.t) (o : string) : string :=
  (GMM.debug self +:+ "gmm -i " +:+ GMM.dataset self +:+ " -v ") +:+ o.

(** Strings that [shlex] reads as part of one word: no whitespace, no quote,
    no backslash. *)
Definition plain_char (c : ascii) : bool :=
  negb (Shlex.whitespace c) && negb (Shlex.quote c) && negb (Shlex.escape c).

Fixpoint plain (s : string) : bool :=
  match s with
  | EmptyString => true
  | String c s' => plain_char c && plain s'
  end.

(** Strings without quote or backslash: [shlex] splits them at whitespace. *)
Fixpoint unquoted (s : string) : bool :=
  match s with
  | EmptyString => true
  | String c s' => negb (Shlex.quote c) && negb (Shlex.escape c) && unquoted s'
  end.

(** Binary64 numbers that are neither negative nor NaN. *)
Definition nonnegative (x : Float.float) : Prop :=
  match x with
  | S754_zero s | S754_infinity s | S754_finite s _ _ => s = false
  | S754_nan => False
  end.

(** Closed decidable side conditions are settled by evaluation. *)
Ltac decide_by_computation := apply (bool_decide_unpack _); vm_compute; exact I.

(** * Sample evaluations of the runtime model *)

Example float_of_bytes :
  Float.parse (codes " 0.734") = Some f0_734 ∧
  Float.parse (codes "1_0.5e1") = Some (Float.of_N 105) ∧
  Float.parse (codes "-inf") = Some (S754_infinity true) ∧
  Float.parse (codes "1,5") = None ∧
  Float.parse (codes "1__0") = None ∧
  Float.parse (codes "1e") = None ∧
  Float.parse [] = None.
Proof. by vm_compute. Qed.

(** ARABIC-INDIC DIGITS are decimal digits, NO-BREAK SPACE is a space. *)
Example float_of_str :
  Unicode.float_of_text [1633; 1637; 1632; 1632]%N = Some (Float.of_N 1500) ∧
  Unicode.float_of_text [160; 49]%N = Some (Float.of_N 1) ∧
  Unicode.float_of_text [49; 233]%N = None.
Proof. by vm_compute. Qed.

Example decode_samples :
  Unicode.decode [195; 169; 226; 130; 172; 240; 159; 152; 128]%N
    = Some [233; 8364; 128512]%N ∧
  Unicode.decode [255]%N = None ∧
  Unicode.decode [192; 128]%N = None ∧
  Unicode.decode [237; 160; 128]%N = None.
Proof. by vm_compute. Qed.

Example split_samples :
  Shlex.split "/usr/bin/gmm -i 'a b'.csv -v  "
    = inr ["/usr/bin/gmm"; "-i"; "a b.csv"; "-v"] ∧
  Shlex.split "gmm -i 'a" = inl Shlex.NoClosingQuotation ∧
  Shlex.split ("gmm -i a" +:+ String "092" EmptyString)
    = inl Shlex.NoEscapedCharacter.
Proof. by vm_compute. Qed.

(** The lazy prefix stops at the first [em:] that an [s] follows, and the
    group runs up to that [s]. *)
Example gmm_pattern_samples :
  Re.group_of_match GMM.pattern (codes "em: 0.734s") = Some (codes " 0.734") ∧
  Re.group_of_match GMM.pattern (codes "system: em: 1s") = Some (codes " em: 1") ∧
  Re.group_of_match GMM.pattern (codes "em: 1.5") = None.
Proof. by vm_compute. Qed.

(** The first timer line whose digits are followed by [ms] is the one
    found. *)
Example pca_pattern_samples :
  Re.group_of_match PCA.pattern (codes "x.datasource.FileBased.load: 1500 ms")
    = Some (codes "1500") ∧
  Re.group_of_match PCA.pattern (codes "datasource.load: 12 datasource.load: 7 ms")
    = Some (codes "7") ∧
  Re.group_of_match PCA.pattern (codes "datasource.load: 1.5 ms") = None.
Proof. by vm_compute. Qed.

(** * Facts about the runtime model *)

Section MatcherSound.
Import Re.
Context {R : Type}.

Lemma lazy_star_sound c (k : list N → option R) s r :
  lazy_star c k s = Some r →
  ∃ a b, s = a ++ b ∧ forallb c a = true ∧ k b = Some r.
Proof.
  induction s as [|x s IH]; simpl.
  - destruct (k []) eqn:E; [|discriminate].
    intros [= ->]. by exists [], [].
  - destruct (k (x :: s)) eqn:E.
    + intros [= ->]. by exists [], (x :: s).
    + destruct (c x) eqn:Ec; [|discriminate].
      intros (a & b & -> & Ha & Hk)%IH.
      exists (x :: a), b. simpl. by rewrite Ec, Ha.
Qed.

Lemma greedy_star_sound c (k : list N → option R) s r :
  greedy_star c k s = Some r →
  ∃ a b, s = a ++ b ∧ forallb c a = true ∧ k b = Some r.
Proof.
  induction s as [|x s IH]; simpl.
  - intros H. by exists [], [].
  - destruct (c x) eqn:Ec.
    + destruct (greedy_star c k s) eqn:E.
      * intros [= ->]. destruct (IH eq_refl) as (a & b & -> & Ha & Hk).
        exists (x :: a), b. simpl. by rewrite Ec, Ha.
      * intros H. by exists [], (x :: s).
    + intros H. by exists [], (x :: s).
Qed.

Lemma match_items_sound p (k : list N → option R) s r :
  match_items p k s = Some r →
  ∃ a b, s = a ++ b ∧ consumes p a ∧ k b = Some r.
Proof.
  revert k s. induction p as [|[c|[] c] p IH]; intros k s; simpl.
  - intros H. exists [], s. split_and!; [done|constructor|done].
  - destruct s as [|x s]; [discriminate|].
    destruct (c x) eqn:Ec; [|discriminate].
    intros (a & b & -> & Ha & Hk)%IH.
    exists (x :: a), b. split_and!; [done|by constructor|done].
  - intros (a & b & -> & Ha & (a' & b' & -> & Ha' & Hk)%IH)%greedy_star_sound.
    exists (a ++ a'), b'. split_and!; [by rewrite app_assoc|by constructor|done].
  - intros (a & b & -> & Ha & (a' & b' & -> & Ha' & Hk)%IH)%lazy_star_sound.
    exists (a ++ a'), b'. split_and!; [by rewrite app_assoc|by constructor|done].
Qed.
End MatcherSound.

Lemma group_of_match_sound p s g :
  Re.group_of_match p s = Some g →
  ∃ a b rest, s = a ++ g ++ b ++ rest ∧
    consumes (Re.before p) a ∧ consumes (Re.inside p) g ∧ consumes (Re.after p) b.
Proof.
  unfold Re.group_of_match.
  intros (a & s1 & -> & Ha & (g' & s2 & -> & Hg
    & (b & s3 & -> & Hb & [= <-])%match_items_sound)%match_items_sound)%match_items_sound.
  rewrite length_app, Nat.add_sub, take_app_length.
  by exists a, b, s3.
Qed.

Lemma decimal_in_spec runs c d :
  Unicode.decimal_in runs c = Some d →
  ∃ start len, (start, len) ∈ runs ∧ (start <= c < start + len)%N ∧ d = ((c - start) mod 10)%N.
Proof.
  induction runs as [|[start len] runs IH]; simpl; [done|].
  destruct (_ && _) eqn:E.
  - intros [= <-]. exists start, len. apply andb_true_iff in E as [?%N.leb_le ?%N.ltb_lt].
    split_and!; [left|lia|lia|done].
  - intros (s & l & ? & ? & ?)%IH. exists s, l. split_and!; [by right|lia|lia|done].
Qed.

Lemma decimal_facts c d :
  Unicode.decimal c = Some d →
  (d < 10)%N ∧ Unicode.isspace c = false ∧ ((c < 127)%N → c = (48 + d)%N).
Proof.
  intros (start & len & Hin & Hc & ->)%decimal_in_spec.
  split; [apply N.mod_lt; lia|].
  unfold Unicode.decimal_runs in Hin.
  unfold Unicode.isspace, Unicode.between.
  repeat (apply elem_of_cons in Hin as [[= -> ->]|Hin];
    [ split; [ repeat (apply orb_false_intro); try apply andb_false_iff; rewrite ?N.leb_gt, ?N.eqb_neq; lia
             | intros ?; try lia; rewrite N.mod_small; lia ] | ]).
  by apply elem_of_nil in Hin.
Qed.

Lemma is_digit_spec c : Float.is_digit c = true ↔ (48 <= c <= 57)%N.
Proof. unfold Float.is_digit. rewrite andb_true_iff, !N.leb_le. done. Qed.

Lemma strip_underscores_digits prev s :
  prev ≠ 95%N → forallb Float.is_digit s = true →
  Float.strip_underscores prev s = Some s.
Proof.
  revert prev. induction s as [|c s IH]; intros prev Hp; simpl.
  - by destruct (N.eqb_spec prev 95).
  - intros [Hc%is_digit_spec Hs]%andb_true_iff.
    destruct (N.eqb_spec c 95); [lia|].
    destruct (N.eqb_spec prev 95); [done|]. simpl.
    by rewrite IH.
Qed.

Lemma read_digits_all acc n s :
  forallb Float.is_digit s = true →
  Float.read_digits acc n s =
    (fold_left (fun a c => (a * 10 + (c - 48))%N) s acc, (n + length s)%nat, []).
Proof.
  revert acc n. induction s as [|c s IH]; intros acc n; simpl.
  - intros _. by rewrite Nat.add_0_r.
  - intros [-> Hs]%andb_true_iff. rewrite IH by done. do 2 f_equal. lia.
Qed.

Lemma parse_digits s :
  s ≠ [] → forallb Float.is_digit s = true →
  Float.parse s =
    Some (Float.of_N (fold_left (fun a c => (a * 10 + (c - 48))%N) s 0%N)).
Proof.
  intros Hne Hs. unfold Float.parse.
  rewrite strip_underscores_digits by done. simpl.
  destruct s as [|c s]; [done|]. clear Hne.
  pose proof Hs as [Hc%is_digit_spec _]%andb_true_iff.
  assert (Float.drop_spaces (c :: s) = c :: s) as ->.
  { simpl. unfold Float.is_space.
    destruct (N.leb_spec 9 c), (N.leb_spec c 13), (N.eqb_spec c 32); simpl; try done; lia. }
  assert (Float.read_sign (c :: s) = (false, c :: s)) as ->.
  { unfold Float.read_sign. destruct c as [|p]; [done|].
    destruct (decide (p = 43%positive)) as [->|]; [lia|].
    destruct (decide (p = 45%positive)) as [->|]; [lia|].
    repeat (destruct p as [p|p|]; try done). }
  assert (Float.read_special false (c :: s) = None) as ->.
  { unfold Float.read_special.
    assert (Float.lower c = c) as Hl.
    { unfold Float.lower. destruct (N.leb_spec 65 c); simpl; [|done]. lia. }
    repeat case_decide; try done;
      match goal with H : take _ _ = _ |- _ => simpl in H; rewrite Hl in H; injection H; intros; lia end. }
  unfold Float.read_number. rewrite read_digits_all by done.
  simpl length. rewrite Nat.add_0_r. simpl.
  by rewrite Z.sub_0_r.
Qed.

Lemma to_ascii_decimal_acc g acc :
  forallb Unicode.isdecimal g = true →
  forallb Float.is_digit (Unicode.to_ascii g) = true ∧
  fold_left (fun a c => (a * 10 + (c - 48))%N) (Unicode.to_ascii g) acc
    = fold_left (fun a c => (a * 10 + default 0 (Unicode.decimal c))%N) g acc ∧
  length (Unicode.to_ascii g) = length g.
Proof.
  revert acc. induction g as [|c g IH]; intros acc; simpl; [done|].
  unfold Unicode.isdecimal at 1.
  destruct (Unicode.decimal c) as [d|] eqn:Ed; [|done]. simpl.
  intros Hg. destruct (decimal_facts _ _ Ed) as (Hd & Hsp & Hlow).
  destruct (IH (acc * 10 + d)%N Hg) as (H1 & H2 & H3).
  destruct (N.ltb_spec c 127).
  - specialize (Hlow ltac:(done)). subst c. simpl.
    split_and!.
    + apply andb_true_iff; split; [apply is_digit_spec; lia|done].
    + rewrite <- H2. f_equal. lia.
    + by rewrite H3.
  - rewrite Hsp. simpl.
    split_and!.
    + apply andb_true_iff; split; [apply is_digit_spec; lia|done].
    + rewrite <- H2. f_equal. lia.
    + by rewrite H3.
Qed.

Lemma float_of_decimal_text g :
  g ≠ [] → forallb Unicode.isdecimal g = true →
  Unicode.float_of_text g = Some (Float.of_N (digits_value g)).
Proof.
  intros Hne Hg. destruct (to_ascii_decimal_acc g 0%N Hg) as (H1 & H2 & H3).
  unfold Unicode.float_of_text. rewrite parse_digits, H2; [done| |done].
  intros E. rewrite E in H3. by destruct g.
Qed.

Lemma pattern_group_decimal s g :
  Re.group_of_match PCA.pattern s = Some g →
  g ≠ [] ∧ forallb Unicode.isdecimal g = true.
Proof.
  intros (a & b & rest & _ & _ & Hg & _)%group_of_match_sound.
  simpl in Hg. inversion Hg as [|c p x w Hx Hw|]; subst.
  inversion Hw as [| |gr c p a' w' Ha Hnil]; subst.
  inversion Hnil; subst. rewrite app_nil_r. split; [done|].
  simpl. by rewrite Hx, Ha.
Qed.

Lemma count_absent c g :
  (∀ x, x ∈ g → x ≠ c) → PCA.count c g = 0%nat.
Proof.
  unfold PCA.count. induction g as [|x g IH]; intros H; [done|].
  rewrite filter_cons. destruct (decide (c = x)) as [->|].
  - exfalso. eapply H; [left|done].
  - apply IH. intros y Hy. apply H. by right.
Qed.

Lemma replace_absent a b g :
  (∀ x, x ∈ g → x ≠ a) → PCA.replace a b g = g.
Proof.
  unfold PCA.replace. induction g as [|x g IH]; intros H; [done|]. simpl.
  destruct (N.eqb_spec x a) as [->|].
  - exfalso. eapply H; [left|done].
  - f_equal. apply IH. intros y Hy. apply H. by right.
Qed.

Lemma decimal_elem g x c :
  forallb Unicode.isdecimal g = true → Unicode.isdecimal c = false →
  x ∈ g → x ≠ c.
Proof.
  intros Hg Hc Hx ->. rewrite forallb_forall in Hg.
  apply list_elem_of_In, Hg in Hx. congruence.
Qed.

Lemma total_time_of_decimal g st :
  g ≠ [] → forallb Unicode.isdecimal g = true →
  PCA.total_time_of g st =
    (Ret (Float.div (Float.of_N (digits_value g)) (Float.of_N 1000)), st).
Proof.
  intros Hne Hg. unfold PCA.total_time_of.
  rewrite (count_absent 46%N g) by (intros x; by apply decimal_elem).
  rewrite decide_False by done.
  rewrite (replace_absent 44%N 46%N g) by (intros x; by apply decimal_elem).
  unfold PCA.float. by rewrite float_of_decimal_text.
Qed.

(** C10 ... *)
Theorem parseTimer_total_time_is_integer_milliseconds
    (self : PCA.t) (data : bytes) (st st' : state) (x : Float.float) :
  PCA.parseTimer self data st = (Ret (Timer x), st') →
  ∃ s group,
    Unicode.decode data = Some s ∧
    Re.group_of_match PCA.pattern s = Some group ∧
    group ≠ [] ∧ forallb Unicode.isdecimal group = true ∧
    PCA.count 46%N group ≠ 1%nat ∧
    x = Float.div (Float.of_N (digits_value group)) (Float.of_N 1000).
Proof.
  unfold PCA.parseTimer.
  destruct (Unicode.decode data) as [s|]; [|done].
  destruct (Re.group_of_match PCA.pattern s) as [g|] eqn:Eg; [|done].
  destruct (pattern_group_decimal _ _ Eg) as [Hne Hg].
  unfold bind. rewrite total_time_of_decimal by done.
  intros [= <- <-]. exists s, g. split_and!; try done.
  rewrite (count_absent 46%N g) by (intros y; by apply decimal_elem). done.
Qed.

Lemma parseTimer_total_time_is_integer_milliseconds_witness :
  ∃ s group,
    Unicode.decode (codes "datasource.load: 1500 ms") = Some s ∧
    Re.group_of_match PCA.pattern s = Some group ∧
    group ≠ [] ∧ forallb Unicode.isdecimal group = true ∧
    PCA.count 46%N group ≠ 1%nat ∧
    S754_finite false 6755399441055744 (-52)
      = Float.div (Float.of_N (digits_value group)) (Float.of_N 1000).
Proof.
  apply (parseTimer_total_time_is_integer_milliseconds
           (PCA.init "/opt/elki/" "iris.csv" None None None)
           (codes "datasource.load: 1500 ms") (State ∅ [] []) (State ∅ [] [])).
  vm_compute. reflexivity.
Defined.

Lemma process_options_run self st :
  PCA.process_options self st =
    if (0 <? size (remaining (options st)))%nat
    then (Raise (Exception "unknown parameters"),
          State (remaining (options st))
            (log st ++ [LogCall Fatal (MsgUnknownParameters (remaining (options st))) None])
            (runs st))
    else (Ret (filter_tokens (options st) ++ dimension_tokens (options st)),
          State (remaining (options st)) (log st) (runs st)).
Proof.
  destruct st as [o l r]. unfold PCA.process_options, remaining, filter_tokens, dimension_tokens.
  unfold bind, get_options, set_options, ret, raise, Log.Fatal, Log.call. simpl.
  destruct (decide (is_Some (o !! "whiten"))) as [[v Hv]|Hn]; simpl.
  - rewrite Hv. rewrite lookup_delete_ne by done.
    destruct (o !! "new_dimensionality") as [w|] eqn:Ew; simpl.
    + by destruct (0 <? _)%nat.
    + rewrite (delete_id (delete _ _) "new_dimensionality") by (by rewrite lookup_delete_ne).
      by destruct (0 <? _)%nat.
  - apply eq_None_not_Some in Hn. rewrite Hn.
    rewrite (delete_id o "whiten") by done.
    destruct (o !! "new_dimensionality") as [w|] eqn:Ew; simpl.
    + by destruct (0 <? _)%nat.
    + rewrite (delete_id o "new_dimensionality") by done.
      by destruct (0 <? _)%nat.
Qed.

(** * The command builder *)

Lemma elem_of_recognized k :
  k ∈ recognized ↔ k = "whiten" ∨ k = "new_dimensionality".
Proof. unfold recognized. by rewrite elem_of_union, !elem_of_singleton. Qed.

Lemma remaining_lookup o k :
  remaining o !! k = if decide (k ∈ recognized) then None else o !! k.
Proof.
  unfold remaining. case_decide as Hk; rewrite elem_of_recognized in Hk.
  - destruct Hk as [-> | ->].
    + by rewrite lookup_delete_ne, lookup_delete_eq.
    + by rewrite lookup_delete_eq.
  - rewrite !lookup_delete_ne; [done| |]; intros <-; tauto.
Qed.

Lemma remaining_dom o : dom (remaining o) = dom o ∖ recognized.
Proof.
  apply set_eq. intros k.
  rewrite elem_of_difference, !elem_of_dom, remaining_lookup.
  case_decide as Hk.
  - split; [by intros [? ?]|tauto].
  - tauto.
Qed.

Lemma remaining_empty o : dom o ⊆ recognized → remaining o = ∅.
Proof.
  intros H. apply (dom_empty_inv_L (D := gset string)).
  rewrite remaining_dom. apply set_eq. intros k.
  rewrite elem_of_difference. split; [|by intros ?%not_elem_of_empty].
  intros [Hk%H ?]. tauto.
Qed.

Lemma remaining_nonempty o : ¬ dom o ⊆ recognized → remaining o ≠ ∅.
Proof.
  intros Hn E. apply Hn. intros k Hk.
  destruct (decide (k ∈ recognized)) as [|Hr]; [done|].
  assert (k ∈ dom (remaining o)) as Hin
    by (rewrite remaining_dom; by apply elem_of_difference).
  rewrite E, dom_empty_L in Hin. by apply not_elem_of_empty in Hin.
Qed.

Lemma process_options_recognized self st :
  dom (options st) ⊆ recognized →
  PCA.process_options self st =
    (Ret (filter_tokens (options st) ++ dimension_tokens (options st)),
     State ∅ (log st) (runs st)).
Proof.
  intros H. rewrite process_options_run, (remaining_empty _ H).
  by rewrite map_size_empty.
Qed.

(** C8. For every configuration map whose keys are all recognized ([whiten],
    [new_dimensionality]), [process_options] does not fail, leaves the map
    empty, logs nothing, runs nothing and returns the list of argument
    tokens. *)
Theorem process_options_consumes_recognized_keys (self : PCA.t) (st : state) :
  dom (options st) ⊆ recognized →
  PCA.process_options self st =
    (Ret (filter_tokens (options st) ++ dimension_tokens (options st)),
     State ∅ (log st) (runs st)).
Proof. apply process_options_recognized. Qed.

Lemma process_options_consumes_recognized_keys_witness :
  dom (options (State {["whiten" := PyBool true; "new_dimensionality" := PyInt 2]} [] []))
    ⊆ recognized ∧
  PCA.process_options (PCA.init "/opt/elki/" "iris.csv" None None None)
    (State {["whiten" := PyBool true; "new_dimensionality" := PyInt 2]} [] []) =
    (Ret ["-dbc.filter";
          "normalization.columnwise.AttributeWiseVarianceNormalization,transform.GlobalPrincipalComponentAnalysisTransform";
          "-globalpca.filter"; "FirstNEigenPairFilter"; "-pca.filter.n"; "2"],
     State ∅ [] []).
Proof.
  assert (dom (options (State {["whiten" := PyBool true; "new_dimensionality" := PyInt 2]} [] []))
            ⊆ recognized) as H.
  { apply (bool_decide_unpack _). vm_compute. exact I. }
  split; [exact H|].
  exact (process_options_consumes_recognized_keys
           (PCA.init "/opt/elki/" "iris.csv" None None None) _ H).
Defined.

Lemma RunMetrics_builder_failure os self st :
  remaining (options st) ≠ ∅ →
  PCA.RunMetrics os self st =
    (Raise (Exception "unknown parameters"),
     State (remaining (options st))
       (log st ++ [LogCall Info (Msg "Perform PCA.") (Some (PCA.verbose self));
                   LogCall Fatal (MsgUnknownParameters (remaining (options st))) None])
       (runs st)).
Proof.
  intros Hne. unfold PCA.RunMetrics, bind at 1.
  unfold Log.Info, Log.call at 1. unfold bind at 1.
  rewrite process_options_run. simpl.
  destruct (Nat.ltb_spec 0 (size (remaining (options st)))) as [_|Hs].
  - by rewrite <- app_assoc.
  - exfalso. apply Hne, map_size_empty_iff. lia.
Qed.


(** * Running the command *)

Lemma Qle_bool_false t e : Qle_bool t e = false ↔ (e < t)%Q.
Proof.
  rewrite <- not_true_iff_false, Qle_bool_iff. split.
  - apply Qnot_le_lt.
  - apply Qlt_not_le.
Qed.

(** The three ways the [try] statement around [check_output] ends. *)
Lemma check_output_timed_out os cmd t st :
  cmd ≠ [] → timed_out (os cmd) t →
  check_output os cmd (Some t) st =
    (Raise (TimeoutExpired cmd t), State (options st) (log st) (runs st ++ [cmd])).
Proof.
  intros Hc H. unfold check_output. destruct cmd; [done|].
  destruct (os _); simpl in H; [done| |done].
  apply Qle_bool_iff in H. by rewrite H.
Qed.

Lemma check_output_crashed os cmd t st :
  cmd ≠ [] → crashed (os cmd) t →
  ∃ e, check_output os cmd (Some t) st =
         (Raise e, State (options st) (log st) (runs st ++ [cmd]))
       ∧ ∀ c t', e ≠ TimeoutExpired c t'.
Proof.
  intros Hc H. unfold check_output. destruct cmd; [done|].
  destruct (os _); simpl in H; [| |done].
  - by exists OSError.
  - destruct H as [He%Qle_bool_false Hs]. rewrite He.
    apply Z.eqb_neq in Hs as ->. by eexists.
Qed.

Lemma check_output_succeeded os cmd t output st :
  cmd ≠ [] → succeeded (os cmd) t output →
  check_output os cmd (Some t) st =
    (Ret output, State (options st) (log st) (runs st ++ [cmd])).
Proof.
  intros Hc (e & H & He%Qle_bool_false). unfold check_output.
  destruct cmd; [done|]. by rewrite H, He.
Qed.

Lemma child_cases (c : child) (t : Q) :
  timed_out c t ∨ crashed c t ∨ ∃ output, succeeded c t output.
Proof.
  destruct c as [|e status output|]; simpl; [tauto| |tauto].
  destruct (Qlt_le_dec e t) as [Hlt|Hle]; [|tauto].
  destruct (decide (status = 0)) as [->|Hs]; [|tauto].
  right; right. exists output, e. done.
Qed.

Lemma child_cases_exclusive (c : child) (t : Q) :
  (timed_out c t → ¬ crashed c t) ∧
  (∀ output, succeeded c t output → ¬ timed_out c t ∧ ¬ crashed c t).
Proof.
  split.
  - destruct c; simpl; try tauto. intros H [H' _]. by apply Qlt_not_le in H'.
  - intros output (e & -> & He). simpl. split.
    + by apply Qlt_not_le.
    + tauto.
Qed.

(** [PCA.RunMetrics] on a configuration map with recognized keys only: the
    state in which the command is run, and the result for each way the run
    ends. *)
Lemma RunMetrics_prefix os self st :
  dom (options st) ⊆ recognized →
  PCA.RunMetrics os self st =
    (let cmd := pca_command self (options st) in
     r <- try_except
            (s <- check_output os cmd (Some (PCA.timeout self)) ;; ret (inl s))
            (fun e =>
               match e with
               | TimeoutExpired _ _ =>
                   Some (Log.Warn (MsgException e) None ;; ret (inr (PCA.Code (-2))))
               | _ =>
                   Some (Log.Fatal (MsgCouldNotExecute cmd) ;; ret (inr (PCA.Code (-1))))
               end) ;;
     match r with
     | inr code => ret code
     | inl s =>
         timer <- PCA.parseTimer self s ;;
         if PCA.differs timer (-1)
         then
           x <- PCA.total_time timer ;;
           Log.Info (MsgTotalTime x) (PCA.verbose self) ;;
           ret (PCA.Metrics (<["Runtime" := x]> ∅))
         else ret (PCA.Metrics ∅)
     end)
    (State ∅ (log st ++ [LogCall Info (Msg "Perform PCA.") (Some (PCA.verbose self))])
       (runs st)).
Proof.
  intros H. unfold PCA.RunMetrics, bind at 1.
  unfold Log.Info, Log.call at 1. unfold bind at 1.
  rewrite (process_options_recognized self) by done. done.
Qed.

Lemma pca_command_nonempty self o : pca_command self o ≠ [].
Proof. done. Qed.

Lemma RunMetrics_timed_out os self st :
  dom (options st) ⊆ recognized →
  timed_out (os (pca_command self (options st))) (PCA.timeout self) →
  PCA.RunMetrics os self st =
    (Ret (PCA.Code (-2)),
     State ∅
       (log st ++ [LogCall Info (Msg "Perform PCA.") (Some (PCA.verbose self));
                   LogCall Warn (MsgException
                     (TimeoutExpired (pca_command self (options st)) (PCA.timeout self))) None])
       (runs st ++ [pca_command self (options st)])).
Proof.
  intros H Ht. rewrite RunMetrics_prefix by done. cbv zeta.
  unfold bind at 1, try_except, bind at 1.
  rewrite check_output_timed_out by done. simpl.
  by rewrite <- app_assoc.
Qed.

Lemma RunMetrics_crashed os self st :
  dom (options st) ⊆ recognized →
  crashed (os (pca_command self (options st))) (PCA.timeout self) →
  PCA.RunMetrics os self st =
    (Ret (PCA.Code (-1)),
     State ∅
       (log st ++ [LogCall Info (Msg "Perform PCA.") (Some (PCA.verbose self));
                   LogCall Fatal (MsgCouldNotExecute (pca_command self (options st))) None])
       (runs st ++ [pca_command self (options st)])).
Proof.
  intros H Hc. rewrite RunMetrics_prefix by done. cbv zeta.
  unfold bind at 1, try_except, bind at 1.
  destruct (check_output_crashed os _ _
    (State ∅ (log st ++ [LogCall Info (Msg "Perform PCA.") (Some (PCA.verbose self))]) (runs st))
    (pca_command_nonempty self (options st)) Hc) as (e & -> & He).
  destruct e as [msg| |msg|name| | | |status c out|c t'];
    [..|by destruct (He c t')]; simpl; by rewrite <- app_assoc.
Qed.

Lemma RunMetrics_succeeded os self st output :
  dom (options st) ⊆ recognized →
  succeeded (os (pca_command self (options st))) (PCA.timeout self) output →
  PCA.RunMetrics os self st =
    (timer <- PCA.parseTimer self output ;;
     if PCA.differs timer (-1)
     then
       x <- PCA.total_time timer ;;
       Log.Info (MsgTotalTime x) (PCA.verbose self) ;;
       ret (PCA.Metrics (<["Runtime" := x]> ∅))
     else ret (PCA.Metrics ∅))
    (State ∅ (log st ++ [LogCall Info (Msg "Perform PCA.") (Some (PCA.verbose self))])
       (runs st ++ [pca_command self (options st)])).
Proof.
  intros H Hs. rewrite RunMetrics_prefix by done. cbv zeta.
  unfold bind at 1, try_except, bind at 1.
  by rewrite (check_output_succeeded _ _ _ output).
Qed.

(** What [PCA.parseTimer] does, case by case. *)
Lemma parseTimer_cases self data st :
  PCA.parseTimer self data st =
    match Unicode.decode data with
    | None => (Raise UnicodeDecodeError, st)
    | Some s =>
        match Re.group_of_match PCA.pattern s with
        | None =>
            (Ret (IntValue (-1)),
             State (options st)
               (log st ++ [LogCall Fatal (Msg "Can't parse the data: wrong format") None])
               (runs st))
        | Some g =>
            (Ret (Timer (Float.div (Float.of_N (digits_value g)) (Float.of_N 1000))), st)
        end
    end.
Proof.
  unfold PCA.parseTimer.
  destruct (Unicode.decode data) as [s|]; [|done].
  destruct (Re.group_of_match PCA.pattern s) as [g|] eqn:Eg; [|done].
  destruct (pattern_group_decimal _ _ Eg) as [Hne Hg].
  unfold bind. by rewrite total_time_of_decimal.
Qed.

Lemma RunMetrics_parse_outcome os self st output :
  dom (options st) ⊆ recognized →
  succeeded (os (pca_command self (options st))) (PCA.timeout self) output →
  let st1 :=
    State ∅ (log st ++ [LogCall Info (Msg "Perform PCA.") (Some (PCA.verbose self))])
      (runs st ++ [pca_command self (options st)]) in
  PCA.RunMetrics os self st =
    match Unicode.decode output with
    | None => (Raise UnicodeDecodeError, st1)
    | Some s =>
        match Re.group_of_match PCA.pattern s with
        | None =>
            (Ret (PCA.Metrics ∅),
             State ∅
               (log st1 ++ [LogCall Fatal (Msg "Can't parse the data: wrong format") None])
               (runs st1))
        | Some g =>
            let x := Float.div (Float.of_N (digits_value g)) (Float.of_N 1000) in
            (Ret (PCA.Metrics {["Runtime" := x]}),
             State ∅
               (log st1 ++ [LogCall Info (MsgTotalTime x) (Some (PCA.verbose self))])
               (runs st1))
        end
    end.
Proof.
  intros H Hs. rewrite (RunMetrics_succeeded _ _ _ output) by done.
  unfold bind at 1. rewrite parseTimer_cases.
  destruct (Unicode.decode output) as [s|]; [|done].
  by destruct (Re.group_of_match PCA.pattern s).
Qed.

Lemma RunMetrics_succeeded_no_code os self st output z :
  dom (options st) ⊆ recognized →
  succeeded (os (pca_command self (options st))) (PCA.timeout self) output →
  ¬ returns (PCA.RunMetrics os self st) (PCA.Code z).
Proof.
  intros H Hs. unfold returns.
  rewrite (RunMetrics_parse_outcome _ _ _ output) by done. cbv zeta.
  destruct (Unicode.decode output) as [s|]; [|done].
  by destruct (Re.group_of_match PCA.pattern s).
Qed.

(** X18. When [PCA.RunMetrics] returns a metrics dictionary: exactly when the
    child process ended in time with exit status 0 and its output is valid
    UTF-8, whether or not the timer pattern matched. *)
Lemma RunMetrics_returns_metrics (os : list string → child) (self : PCA.t)
    (st : state) :
  dom (options st) ⊆ recognized →
  (∃ m, returns (PCA.RunMetrics os self st) (PCA.Metrics m)) ↔
  (∃ output s,
     succeeded (os (pca_command self (options st))) (PCA.timeout self) output ∧
     Unicode.decode output = Some s).
Proof.
  intros H. split.
  - intros [m Hm].
    destruct (child_cases (os (pca_command self (options st))) (PCA.timeout self))
      as [Ht|[Hc|[output Hs]]].
    + unfold returns in Hm. by rewrite RunMetrics_timed_out in Hm.
    + unfold returns in Hm. by rewrite RunMetrics_crashed in Hm.
    + exists output. unfold returns in Hm.
      rewrite (RunMetrics_parse_outcome _ _ _ output) in Hm by done. cbv zeta in Hm.
      destruct (Unicode.decode output) as [s|]; [|done]. by exists s.
  - intros (output & s & Hs & Hd). unfold returns.
    rewrite (RunMetrics_parse_outcome _ _ _ output) by done. cbv zeta.
    rewrite Hd. destruct (Re.group_of_match PCA.pattern s); by eexists.
Qed.

(** C1 (the code against the claim). When the child process ends in time
    with exit status 0 and its output does not match the timer pattern,
    [RunMetrics] logs the parse failure and returns the empty metrics
    dictionary, not the value -1. *)
Theorem RunMetrics_parse_failure_returns_empty_metrics
    (os : list string → child) (self : PCA.t) (st : state)
    (output : bytes) (s : text) :
  dom (options st) ⊆ recognized →
  succeeded (os (pca_command self (options st))) (PCA.timeout self) output →
  Unicode.decode output = Some s →
  Re.group_of_match PCA.pattern s = None →
  PCA.RunMetrics os self st =
    (Ret (PCA.Metrics ∅),
     State ∅
       (log st ++ [LogCall Info (Msg "Perform PCA.") (Some (PCA.verbose self));
                   LogCall Fatal (Msg "Can't parse the data: wrong format") None])
       (runs st ++ [pca_command self (options st)])).
Proof.
  intros H Hs Hd Hm. rewrite (RunMetrics_parse_outcome _ _ _ output) by done.
  cbv zeta. rewrite Hd, Hm. simpl. by rewrite <- app_assoc.
Qed.

(** C4 (the code against the claim). An object built with the default
    timeout (0) passes a window of zero seconds to [check_output]: whatever
    the child process does once started, [RunMetrics] returns -2. *)
Theorem default_timeout_always_times_out
    (os : list string → child) (javapath dataset : string)
    (path : option string) (verbose : option bool) (st : state)
    (elapsed : Q) (status : Z) (output : bytes) :
  let self := PCA.init javapath dataset None path verbose in
  dom (options st) ⊆ recognized →
  os (pca_command self (options st)) = Exits elapsed status output →
  (0 <= elapsed)%Q →
  returns (PCA.RunMetrics os self st) (PCA.Code (-2)).
Proof.
  intros self H Hos He. unfold returns.
  rewrite RunMetrics_timed_out; [done..|]. by rewrite Hos.
Qed.

(** C6 (as amended). For a configuration map with recognized keys only,
    [RunMetrics] returns -2 exactly when the child process did not end
    within the timeout, and -1 exactly when it could not be started or
    ended in time with a non-zero exit status; it returns no other integer,
    so the two failures are told apart by the value alone.  For a map with
    a key that is not recognized it returns no integer at all. *)
Theorem execution_failures_yield_distinct_sentinels
    (os : list string → child) (self : PCA.t) (st : state) :
  (dom (options st) ⊆ recognized →
   (returns (PCA.RunMetrics os self st) (PCA.Code (-2)) ↔
      timed_out (os (pca_command self (options st))) (PCA.timeout self)) ∧
   (returns (PCA.RunMetrics os self st) (PCA.Code (-1)) ↔
      crashed (os (pca_command self (options st))) (PCA.timeout self)) ∧
   (∀ z, returns (PCA.RunMetrics os self st) (PCA.Code z) → z = -2 ∨ z = -1)) ∧
  (¬ dom (options st) ⊆ recognized →
   ∀ z, ¬ returns (PCA.RunMetrics os self st) (PCA.Code z)).
Proof.
  split; [intros H|intros Hn].
  2:{ intros z. unfold returns.
      by rewrite RunMetrics_builder_failure by by apply remaining_nonempty. }
  destruct (child_cases_exclusive (os (pca_command self (options st)))
              (PCA.timeout self)) as [Hex1 Hex2].
  destruct (child_cases (os (pca_command self (options st))) (PCA.timeout self))
    as [Ht|[Hc|[output Hs]]].
  - unfold returns. rewrite (RunMetrics_timed_out os self st H Ht). simpl.
    split_and!.
    + done.
    + split; [done|]. intros Hc. by destruct (Hex1 Ht).
    + intros z [= <-]. by left.
  - unfold returns. rewrite (RunMetrics_crashed os self st H Hc). simpl.
    split_and!.
    + split; [done|]. intros Ht. by destruct (Hex1 Ht).
    + done.
    + intros z [= <-]. by right.
  - destruct (Hex2 output Hs) as [Hnt Hnc].
    pose proof (fun z => RunMetrics_succeeded_no_code os self st output z H Hs) as Hno.
    split_and!.
    + split; [|done]. intros Hr. by destruct (Hno _ Hr).
    + split; [|done]. intros Hr. by destruct (Hno _ Hr).
    + intros z Hr. by destruct (Hno _ Hr).
Qed.

(** C2 (as amended). A command-construction failure is logged and then
    raised: the exception leaves [RunMetrics].  When every key is
    recognized and the output of the child process is valid UTF-8,
    [RunMetrics] raises nothing and returns a value; an output that does
    not match the timer pattern is reported by a logged message. *)
Theorem RunMetrics_raises_only_for_construction_or_decoding
    (os : list string → child) (self : PCA.t) (st : state) :
  (¬ dom (options st) ⊆ recognized →
   PCA.RunMetrics os self st =
     (Raise (Exception "unknown parameters"),
      State (remaining (options st))
        (log st ++ [LogCall Info (Msg "Perform PCA.") (Some (PCA.verbose self));
                    LogCall Fatal (MsgUnknownParameters (remaining (options st))) None])
        (runs st))) ∧
  (dom (options st) ⊆ recognized →
   (∀ elapsed status output,
      os (pca_command self (options st)) = Exits elapsed status output →
      is_Some (Unicode.decode output)) →
   ∃ r st',
     PCA.RunMetrics os self st = (Ret r, st') ∧
     ∀ output s,
       succeeded (os (pca_command self (options st))) (PCA.timeout self) output →
       Unicode.decode output = Some s →
       Re.group_of_match PCA.pattern s = None →
       last (log st') = Some (LogCall Fatal (Msg "Can't parse the data: wrong format") None)).
Proof.
  split.
  - intros Hn. by apply RunMetrics_builder_failure, remaining_nonempty.
  - intros H Hdec.
    destruct (child_cases (os (pca_command self (options st))) (PCA.timeout self))
      as [Ht|[Hc|[output Hs]]].
    + do 2 eexists. split; [by apply RunMetrics_timed_out|].
      intros output s Hs. destruct (child_cases_exclusive
        (os (pca_command self (options st))) (PCA.timeout self)) as [_ Hex].
      by destruct (Hex output Hs).
    + do 2 eexists. split; [by apply RunMetrics_crashed|].
      intros output s Hs. destruct (child_cases_exclusive
        (os (pca_command self (options st))) (PCA.timeout self)) as [_ Hex].
      by destruct (Hex output Hs).
    + rewrite (RunMetrics_parse_outcome _ _ _ output) by done. cbv zeta.
      pose proof Hs as (elapsed & Hos & _).
      destruct (Hdec _ _ _ Hos) as [s Hd]. rewrite Hd.
      destruct (Re.group_of_match PCA.pattern s) as [g|] eqn:Hm.
      * do 2 eexists. split; [done|].
        intros output' s' (elapsed' & Hos' & _) Hd' Hm'.
        rewrite Hos in Hos'. injection Hos' as _ <-. congruence.
      * do 2 eexists. split; [done|]. intros _ _ _ _ _. simpl.
        by rewrite last_snoc.
Qed.

(** * [shlex.split] never returns an empty list for the GMM command lines *)

Lemma string_app_cons (x : ascii) (a b : string) :
  String x a +:+ b = String x (a +:+ b).
Proof. done. Qed.

Lemma string_app_assoc (a b c : string) : (a +:+ b) +:+ c = a +:+ b +:+ c.
Proof.
  induction a as [|x a IH]; [done|]. by rewrite !string_app_cons, IH.
Qed.

Lemma tokens_extends m tok quoted acc s cmd :
  Shlex.tokens m tok quoted acc s = inr cmd → acc ≠ [] → cmd ≠ [].
Proof.
  revert m tok quoted acc.
  assert (∀ tok quoted acc, acc ≠ [] → Shlex.emit tok quoted acc ≠ []) as Hemit.
  { intros tok quoted acc Hacc. unfold Shlex.emit.
    destruct (_ && _); [done|]. by destruct acc. }
  induction s as [|c s IH]; intros m tok quoted acc; simpl.
  - destruct m; intros [= <-] Hacc; auto.
  - destruct m as [| |q|back]; repeat case_match; intros Htok Hacc;
      (eapply IH; [exact Htok|]); auto.
Qed.

Lemma snoc_nonempty tok c : Shlex.snoc tok c ≠ EmptyString.
Proof. unfold Shlex.snoc. by destruct tok. Qed.

Lemma emit_pending tok quoted acc :
  tok ≠ EmptyString ∨ quoted = true → Shlex.emit tok quoted acc ≠ [].
Proof.
  intros H. unfold Shlex.emit.
  destruct (bool_decide_reflect (tok = EmptyString)) as [->|]; simpl.
  - destruct H as [? | ->]; [done|]. simpl. by destruct acc.
  - by destruct acc.
Qed.

Lemma tokens_pending m tok quoted acc s cmd :
  Shlex.tokens m tok quoted acc s = inr cmd → pending m tok quoted → cmd ≠ [].
Proof.
  revert m tok quoted acc.
  induction s as [|c s IH]; intros m tok quoted acc; simpl.
  - destruct m; try done. intros [= <-] H. by apply emit_pending.
  - destruct m as [| |q|back]; [done| | |].
    + intros Htok Hp. repeat case_match.
      * eapply tokens_extends; [exact Htok|]. by apply emit_pending.
      * eapply IH; [exact Htok|]. done.
      * eapply IH; [exact Htok|]. done.
      * eapply IH; [exact Htok|]. left. apply snoc_nonempty.
    + intros Htok _. repeat case_match; (eapply IH; [exact Htok|]); simpl; auto.
    + intros H Hp. destruct back as [| |q|]; try done.
      * eapply IH; [exact H|]. left. apply snoc_nonempty.
      * eapply IH; [exact H|]. done.
Qed.

Lemma tokens_through_word_char m tok quoted acc a rest cmd :
  wf_mode m →
  Shlex.tokens m tok quoted acc (a +:+ String "g" rest) = inr cmd → cmd ≠ [].
Proof.
  revert m tok quoted acc.
  induction a as [|c a IH]; intros m tok quoted acc Hwf;
    [change (EmptyString +:+ String "g" rest) with (String "g" rest)
    |rewrite string_app_cons]; simpl.
  - destruct m as [| |q|back]; simpl.
    + intros H. eapply tokens_pending; [exact H|]. by left.
    + intros H. eapply tokens_pending; [exact H|]. left. apply snoc_nonempty.
    + repeat case_match; intros Htok; (eapply tokens_pending; [exact Htok|]); simpl; auto.
    + destruct back as [| |q|]; try done; intros H;
        (eapply tokens_pending; [exact H|]); simpl; auto.
      left. apply snoc_nonempty.
  - destruct m as [| |q|back].
    + repeat case_match; intros Htok; (eapply IH; [|exact Htok]); done.
    + repeat case_match; intros Htok; (eapply IH; [|exact Htok]); done.
    + repeat case_match; intros Htok; (eapply IH; [|exact Htok]); done.
    + destruct back as [| |q|]; try done; intros H; (eapply IH; [|exact H]); done.
Qed.

Lemma gmm_line_nonempty self o cmd :
  Shlex.split (gmm_line self o) = inr cmd → cmd ≠ [].
Proof.
  unfold Shlex.split, gmm_line. rewrite string_app_assoc.
  change ("gmm -i " +:+ GMM.dataset self +:+ " -v ")
    with (String "g" ("mm -i " +:+ GMM.dataset self +:+ " -v ")).
  rewrite string_app_cons. by apply tokens_through_word_char.
Qed.

Lemma gmm_help_nonempty p cmd :
  Shlex.split (p +:+ "gmm -h") = inr cmd → cmd ≠ [].
Proof. unfold Shlex.split. by apply tokens_through_word_char. Qed.

(** * [GMM.RunTiming] *)

(** [GMM.RunTiming] with a [str] as [options], once the command line is
    split. *)
Lemma RunTiming_prefix os self o cmd st :
  Shlex.split (gmm_line self o) = inr cmd →
  GMM.RunTiming os self (GMM.Value (PyStr o)) st =
    (r <- try_except
            (s <- check_output os cmd (Some (GMM.timeout self)) ;; ret (inl s))
            (fun e =>
               match e with
               | TimeoutExpired _ _ =>
                   Some (Log.Warn (MsgException e) None ;; ret (inr (GMM.Code (-2))))
               | _ =>
                   Some (Log.Fatal (MsgCouldNotExecute cmd) ;; ret (inr (GMM.Code (-1))))
               end) ;;
     match r with
     | inr code => ret code
     | inl s =>
         timer <- GMM.parseTimer self s ;;
         if GMM.not_ timer
         then Log.Fatal (Msg "Can't parse the timer") ;; ret (GMM.Code (-1))
         else
           time <- GMM.GetTime self timer ;;
           Log.Info (MsgTotalTime time) (GMM.verbose self) ;;
           ret (GMM.Time time)
     end)
    (State (options st)
       (log st ++ [LogCall Info (Msg "Perform GMM.") (Some (GMM.verbose self))])
       (runs st)).
Proof.
  intros Hsplit. unfold GMM.RunTiming, bind at 1.
  unfold Log.Info, Log.call at 1. unfold bind at 1. unfold GMM.concat, ret at 1.
  unfold bind at 1. unfold GMM.split. unfold gmm_line in Hsplit.
  by rewrite Hsplit.
Qed.

Lemma RunTiming_timed_out os self o cmd st :
  Shlex.split (gmm_line self o) = inr cmd →
  timed_out (os cmd) (GMM.timeout self) →
  GMM.RunTiming os self (GMM.Value (PyStr o)) st =
    (Ret (GMM.Code (-2)),
     State (options st)
       (log st ++ [LogCall Info (Msg "Perform GMM.") (Some (GMM.verbose self));
                   LogCall Warn (MsgException (TimeoutExpired cmd (GMM.timeout self))) None])
       (runs st ++ [cmd])).
Proof.
  intros Hsplit Ht. pose proof (gmm_line_nonempty _ _ _ Hsplit) as Hne.
  rewrite (RunTiming_prefix _ _ _ cmd) by done.
  unfold bind at 1, try_except, bind at 1.
  rewrite check_output_timed_out by done. simpl.
  by rewrite <- app_assoc.
Qed.

Lemma RunTiming_crashed os self o cmd st :
  Shlex.split (gmm_line self o) = inr cmd →
  crashed (os cmd) (GMM.timeout self) →
  GMM.RunTiming os self (GMM.Value (PyStr o)) st =
    (Ret (GMM.Code (-1)),
     State (options st)
       (log st ++ [LogCall Info (Msg "Perform GMM.") (Some (GMM.verbose self));
                   LogCall Fatal (MsgCouldNotExecute cmd) None])
       (runs st ++ [cmd])).
Proof.
  intros Hsplit Hc. pose proof (gmm_line_nonempty _ _ _ Hsplit) as Hne.
  rewrite (RunTiming_prefix _ _ _ cmd) by done.
  unfold bind at 1, try_except, bind at 1.
  destruct (check_output_crashed os cmd (GMM.timeout self)
    (State (options st)
       (log st ++ [LogCall Info (Msg "Perform GMM.") (Some (GMM.verbose self))]) (runs st))
    Hne Hc) as (e & -> & He).
  destruct e as [msg| |msg|name| | | |status c out|c t'];
    [..|by destruct (He c t')]; simpl; by rewrite <- app_assoc.
Qed.

Lemma RunTiming_succeeded os self o cmd st output :
  Shlex.split (gmm_line self o) = inr cmd →
  succeeded (os cmd) (GMM.timeout self) output →
  let st1 :=
    State (options st)
      (log st ++ [LogCall Info (Msg "Perform GMM.") (Some (GMM.verbose self))])
      (runs st ++ [cmd]) in
  GMM.RunTiming os self (GMM.Value (PyStr o)) st =
    match Re.group_of_match GMM.pattern output with
    | None =>
        (Raise (AttributeError "em"),
         State (options st)
           (log st1 ++ [LogCall Fatal (Msg "Can't parse the data: wrong format") None])
           (runs st1))
    | Some g =>
        match Float.parse g with
        | None => (Raise (ValueError "could not convert string to float"), st1)
        | Some x =>
            (Ret (GMM.Time x),
             State (options st)
               (log st1 ++ [LogCall Info (MsgTotalTime x) (Some (GMM.verbose self))])
               (runs st1))
        end
    end.
Proof.
  intros Hsplit Hs. pose proof (gmm_line_nonempty _ _ _ Hsplit) as Hne.
  rewrite (RunTiming_prefix _ _ _ cmd) by done.
  unfold bind at 1, try_except, bind at 1.
  rewrite (check_output_succeeded _ _ _ output) by done.
  cbv zeta. unfold ret at 1. cbv iota beta.
  unfold bind at 1, GMM.parseTimer.
  destruct (Re.group_of_match GMM.pattern output) as [g|]; [|done].
  unfold bind at 1, GMM.float. by destruct (Float.parse g).
Qed.

(** * Matching a timer line *)

Section MatcherComplete.
Import Re.
Context {R : Type}.

Lemma lazy_star_now c (k : list N → option R) s r :
  k s = Some r → lazy_star c k s = Some r.
Proof. intros H. destruct s; simpl; by rewrite H. Qed.

Lemma greedy_star_stop c (k : list N → option R) x s :
  c x = false → greedy_star c k (x :: s) = k (x :: s).
Proof. intros H. simpl. by rewrite H. Qed.

Lemma greedy_star_all c (k : list N → option R) a y b r :
  forallb c a = true → c y = false → k (y :: b) = Some r →
  greedy_star c k (a ++ y :: b) = Some r.
Proof.
  intros Ha Hy Hk. induction a as [|x a IH]; simpl.
  - by rewrite Hy.
  - apply andb_true_iff in Ha as [-> Ha]. by rewrite IH.
Qed.

Lemma match_digits c (k : list N → option R) d ds y b r :
  c d = true → forallb c ds = true → c y = false → k (y :: b) = Some r →
  match_items [One c; Many true c] k (d :: ds ++ y :: b) = Some r.
Proof. intros Hd Hds Hy Hk. simpl. rewrite Hd. by apply greedy_star_all. Qed.

End MatcherComplete.

Lemma ascii_digit_classes d :
  Float.is_digit d = true →
  Unicode.isdecimal d = true ∧ Unicode.isspace d = false ∧ (d <? 128)%N = true.
Proof.
  intros Hd%is_digit_spec. split_and!.
  - unfold Unicode.isdecimal, Unicode.decimal, Unicode.decimal_runs. simpl Unicode.decimal_in.
    destruct (N.leb_spec 48 d); [|lia]. destruct (N.ltb_spec d (48 + 10)); [done|lia].
  - unfold Unicode.isspace, Unicode.between.
    repeat (apply orb_false_intro); try apply andb_false_iff;
      rewrite ?N.leb_gt, ?N.eqb_neq; lia.
  - apply N.ltb_lt. lia.
Qed.

Lemma forallb_impl {A} (f g : A → bool) l :
  (∀ x, f x = true → g x = true) → forallb f l = true → forallb g l = true.
Proof. rewrite !forallb_forall. auto. Qed.

Lemma decode_ascii s :
  forallb (fun c => c <? 128)%N s = true → Unicode.decode s = Some s.
Proof.
  induction s as [|c s IH]; simpl; [done|].
  intros [-> Hs]%andb_true_iff. by rewrite IH.
Qed.

Lemma timer_line_group ds :
  ds ≠ [] → forallb Float.is_digit ds = true →
  Re.group_of_match PCA.pattern (codes "datasource.load: " ++ ds ++ codes " ms")
    = Some ds.
Proof.
  intros Hne Hds. destruct ds as [|d ds]; [done|]. clear Hne.
  apply andb_true_iff in Hds as [Hd Hds].
  destruct (ascii_digit_classes d Hd) as (Hdec & Hsp & _).
  assert (forallb Unicode.isdecimal ds = true) as Hdecs.
  { eapply forallb_impl; [|exact Hds]. intros x Hx. by apply ascii_digit_classes. }
  unfold Re.group_of_match.
  set (k := fun s1 : list N => Re.match_items (Re.inside PCA.pattern) _ s1).
  assert (Re.greedy_star Unicode.isspace k (32%N :: (d :: ds) ++ codes " ms") = Some (d :: ds)) as Hk.
  { change (Re.greedy_star Unicode.isspace k (32%N :: (d :: ds) ++ codes " ms"))
      with (match Re.greedy_star Unicode.isspace k ((d :: ds) ++ codes " ms") with
            | Some r => Some r
            | None => k (32%N :: (d :: ds) ++ codes " ms")
            end).
    simpl app. rewrite greedy_star_stop by done.
    unfold k.
    change (Re.inside PCA.pattern)
      with [Re.One Unicode.isdecimal; Re.Many true Unicode.isdecimal].
    change (codes " ms") with (32%N :: codes "ms").
    erewrite match_digits; [done..|].
    simpl. f_equal. rewrite length_app.
    replace (length ds + length (32%N :: codes "ms") - 2)%nat
      with (S (length ds)) by (simpl; lia).
    simpl. by rewrite take_app_length. }
  clearbody k.
  change (codes "datasource.load: " ++ (d :: ds) ++ codes " ms")
    with (codes "datasource.load:" ++ 32%N :: (d :: ds) ++ codes " ms").
  generalize dependent ((d :: ds) ++ codes " ms"). intros tl Hk.
  apply lazy_star_now. simpl. exact Hk.
Qed.

(** C3 (as amended). For every non-empty run of ASCII digits, the output
    [datasource.load: <digits> ms] is parsed into the number the digits
    denote divided by 1000: 1.5 for [1500].  A value written with a decimal
    comma does not match the pattern and is reported as a parse failure.
    The conversion applied to a captured text divides by 1000 whatever the
    text: [1.5] and [1,5] would both give 0.0015. *)
Theorem timer_line_yields_milliseconds_over_1000 (self : PCA.t) (st : state) :
  (∀ ds : text,
     ds ≠ [] → forallb Float.is_digit ds = true →
     PCA.parseTimer self (codes "datasource.load: " ++ ds ++ codes " ms") st =
       (Ret (Timer (Float.div (Float.of_N (digits_value ds)) (Float.of_N 1000))), st)) ∧
  Float.div (Float.of_N (digits_value (codes "1500"))) (Float.of_N 1000)
    = one_and_a_half ∧
  PCA.parseTimer self (codes "datasource.load: 1,5 ms") st =
    (Ret (IntValue (-1)),
     State (options st)
       (log st ++ [LogCall Fatal (Msg "Can't parse the data: wrong format") None])
       (runs st)) ∧
  PCA.total_time_of (codes "1.5") st = (Ret f0_0015, st) ∧
  PCA.total_time_of (codes "1,5") st = (Ret f0_0015, st).
Proof.
  split_and!; [| | |done|done].
  - intros ds Hne Hds. rewrite parseTimer_cases, decode_ascii.
    + by rewrite timer_line_group.
    + rewrite !forallb_app. apply andb_true_iff. split; [done|].
      apply andb_true_iff. split; [|done].
      eapply forallb_impl; [|exact Hds]. intros x Hx. by apply ascii_digit_classes.
  - by vm_compute.
  - rewrite parseTimer_cases. by vm_compute.
Qed.

Lemma timer_line_yields_milliseconds_over_1000_witness :
  codes "1500" ≠ [] ∧ forallb Float.is_digit (codes "1500") = true ∧
  PCA.parseTimer sample_pca (codes "datasource.load: " ++ codes "1500" ++ codes " ms")
    (State ∅ [] []) =
    (Ret (Timer one_and_a_half), State ∅ [] []).
Proof.
  split; [done|]. split; [reflexivity|].
  exact (proj1 (timer_line_yields_milliseconds_over_1000 sample_pca (State ∅ [] []))
           (codes "1500") ltac:(done) eq_refl).
Defined.

(** C3 (the claim against the code). Neither parser finds a timing in
    [total time: 1500 ms] or [total time: 1,5s]: both report a parse
    failure. *)
Lemma total_time_outputs_do_not_parse :
  PCA.parseTimer sample_pca (codes "total time: 1500 ms") (State ∅ [] []) =
    (Ret (IntValue (-1)),
     State ∅ [LogCall Fatal (Msg "Can't parse the data: wrong format") None] []) ∧
  PCA.parseTimer sample_pca (codes "total time: 1,5s") (State ∅ [] []) =
    (Ret (IntValue (-1)),
     State ∅ [LogCall Fatal (Msg "Can't parse the data: wrong format") None] []) ∧
  GMM.parseTimer sample_gmm (codes "total time: 1500 ms") (State ∅ [] []) =
    (Ret (IntValue (-1)),
     State ∅ [LogCall Fatal (Msg "Can't parse the data: wrong format") None] []) ∧
  GMM.parseTimer sample_gmm (codes "total time: 1,5s") (State ∅ [] []) =
    (Ret (IntValue (-1)),
     State ∅ [LogCall Fatal (Msg "Can't parse the data: wrong format") None] []).
Proof. split_and!; by vm_compute. Qed.

(** * Construction of a [GMM] object *)

Lemma init_probe os bin dbg ds t p v d cmd st :
  Shlex.split (default bin p +:+ "gmm -h") = inr cmd →
  GMM.init os bin dbg ds t p v d st =
    (let self x :=
       {| GMM.verbose := default true v;
          GMM.dataset := ds;
          GMM.path := default bin p;
          GMM.timeout := default 0%Q t;
          GMM.debug := default dbg d;
          GMM.description := x |} in
     r <- try_except
            (s <- check_output os cmd None ;; ret (Some s))
            (fun e => Some (Log.Fatal (MsgCouldNotExecute cmd) ;; ret None)) ;;
     match r with
     | None => ret (self None)
     | Some s =>
         match Re.group_of_match GMM.description_pattern s with
         | None =>
             Log.Warn (Msg "Can't parse description") (Some (default true v)) ;;
             ret (self (Some (GMM.DescStr EmptyString)))
         | Some group => ret (self (Some (GMM.DescBytes group)))
         end
     end) st.
Proof.
  intros Hsplit. unfold GMM.init, bind at 1, GMM.split. by rewrite Hsplit.
Qed.

(** C5 (the code against the claim). When the probe command cannot be
    started, or ends with a non-zero exit status, the constructor returns
    an object, but it records the failure with [Log.Fatal] and never
    assigns the [description] attribute. *)
Theorem probe_failure_leaves_description_unset
    (os : list string → child) (mlpack_bin mlpack_bin_debug dataset : string)
    (timeout : option Q) (path : option string) (verbose : option bool)
    (debug : option string) (cmd : list string) (st : state) :
  Shlex.split (default mlpack_bin path +:+ "gmm -h") = inr cmd →
  (os cmd = NotStarted ∨
   ∃ elapsed status output, os cmd = Exits elapsed status output ∧ status ≠ 0) →
  GMM.init os mlpack_bin mlpack_bin_debug dataset timeout path verbose debug st =
    (Ret {| GMM.verbose := default true verbose;
            GMM.dataset := dataset;
            GMM.path := default mlpack_bin path;
            GMM.timeout := default 0%Q timeout;
            GMM.debug := default mlpack_bin_debug debug;
            GMM.description := None |},
     State (options st)
       (log st ++ [LogCall Fatal (MsgCouldNotExecute cmd) None])
       (runs st ++ [cmd])).
Proof.
  intros Hsplit Hos. rewrite (init_probe _ _ _ _ _ _ _ _ cmd) by done.
  cbv zeta. unfold bind at 1, try_except, bind at 1, check_output.
  pose proof (gmm_help_nonempty _ _ Hsplit) as Hne.
  destruct cmd as [|c0 cmd]; [done|].
  destruct Hos as [->|(elapsed & status & output & -> & Hs)]; [done|].
  by apply Z.eqb_neq in Hs as ->.
Qed.

Lemma probe_failure_leaves_description_unset_witness :
  Shlex.split (default "/usr/bin/" None +:+ "gmm -h") = inr ["/usr/bin/gmm"; "-h"] ∧
  GMM.init (fun _ => NotStarted) "/usr/bin/" "/usr/bin/debug/" "datasets/iris.csv"
    None None None None (State ∅ [] []) =
    (Ret {| GMM.verbose := true;
            GMM.dataset := "datasets/iris.csv";
            GMM.path := "/usr/bin/";
            GMM.timeout := 0%Q;
            GMM.debug := "/usr/bin/debug/";
            GMM.description := None |},
     State ∅ [LogCall Fatal (MsgCouldNotExecute ["/usr/bin/gmm"; "-h"]) None]
       [["/usr/bin/gmm"; "-h"]]).
Proof.
  split; [reflexivity|].
  exact (probe_failure_leaves_description_unset (fun _ => NotStarted)
           "/usr/bin/" "/usr/bin/debug/" "datasets/iris.csv" None None None None
           ["/usr/bin/gmm"; "-h"] (State ∅ [] []) eq_refl (or_introl eq_refl)).
Defined.

(** C9 (as amended). A [GMM] object exposes [RunTiming], which takes its
    options as a string.  Once an object is constructed, [RunTiming] with
    the empty option string, against an executable that ends within the
    timeout with exit status 0 and the output [em: 0.734s], returns 0.734. *)
Theorem RunTiming_returns_em_time
    (os : list string → child) (mlpack_bin mlpack_bin_debug dataset : string)
    (timeout : option Q) (path : option string) (verbose : option bool)
    (debug : option string) (st0 st1 : state) (self : GMM.t)
    (cmd : list string) :
  GMM.init os mlpack_bin mlpack_bin_debug dataset timeout path verbose debug st0
    = (Ret self, st1) →
  Shlex.split (gmm_line self EmptyString) = inr cmd →
  succeeded (os cmd) (GMM.timeout self) (codes "em: 0.734s") →
  In "RunTiming" GMM.methods ∧
  GMM.RunTiming os self (GMM.Value (PyStr EmptyString)) st1 =
    (Ret (GMM.Time f0_734),
     State (options st1)
       (log st1 ++ [LogCall Info (Msg "Perform GMM.") (Some (GMM.verbose self));
                    LogCall Info (MsgTotalTime f0_734) (Some (GMM.verbose self))])
       (runs st1 ++ [cmd])).
Proof.
  intros _ Hsplit Hs. split; [simpl; tauto|].
  rewrite (RunTiming_succeeded _ _ _ cmd _ (codes "em: 0.734s")) by done.
  cbv zeta.
  change (Re.group_of_match GMM.pattern (codes "em: 0.734s")) with (Some (codes " 0.734")).
  change (Float.parse (codes " 0.734")) with (Some f0_734).
  simpl. by rewrite <- app_assoc.
Qed.

(** * Examples *)


Lemma RunMetrics_parse_failure_returns_empty_metrics_witness :
  succeeded (emitting "total time: 1500 ms" (pca_command sample_pca ∅))
    (PCA.timeout sample_pca) (codes "total time: 1500 ms") ∧
  Re.group_of_match PCA.pattern (codes "total time: 1500 ms") = None ∧
  PCA.RunMetrics (emitting "total time: 1500 ms") sample_pca (State ∅ [] []) =
    (Ret (PCA.Metrics ∅),
     State ∅
       [LogCall Info (Msg "Perform PCA.") (Some true);
        LogCall Fatal (Msg "Can't parse the data: wrong format") None]
       [["java"; "-jar"; "/opt/elki/elki.jar"; "cli"; "-time"; "-dbc.in";
         "datasets/iris.csv"; "-algorithm"; "NullAlgorithm"; "-resulthandler";
         "DiscardResultHandler"; "-dbc.filter";
         "transform.GlobalPrincipalComponentAnalysisTransform"]]).
Proof.
  assert (succeeded (emitting "total time: 1500 ms" (pca_command sample_pca ∅))
            (PCA.timeout sample_pca) (codes "total time: 1500 ms")) as Hs.
  { exists 1%Q. split; reflexivity. }
  assert (Re.group_of_match PCA.pattern (codes "total time: 1500 ms") = None) as Hm
    by (vm_compute; reflexivity).
  split; [exact Hs|]. split; [exact Hm|].
  refine (RunMetrics_parse_failure_returns_empty_metrics
    (emitting "total time: 1500 ms") sample_pca (State ∅ [] [])
    (codes "total time: 1500 ms") (codes "total time: 1500 ms") _ Hs _ Hm).
  - decide_by_computation.
  - vm_compute; reflexivity.
Defined.

Lemma default_timeout_always_times_out_witness :
  emitting "datasource.load: 1500 ms"
    (pca_command (PCA.init "/opt/elki/" "datasets/iris.csv" None None None) ∅)
    = Exits 1 0 (codes "datasource.load: 1500 ms") ∧
  (0 <= 1)%Q ∧
  returns
    (PCA.RunMetrics (emitting "datasource.load: 1500 ms")
       (PCA.init "/opt/elki/" "datasets/iris.csv" None None None) (State ∅ [] []))
    (PCA.Code (-2)).
Proof.
  split; [reflexivity|]. split; [discriminate|].
  refine (default_timeout_always_times_out (emitting "datasource.load: 1500 ms")
    "/opt/elki/" "datasets/iris.csv" None None (State ∅ [] [])
    1 0 (codes "datasource.load: 1500 ms") _ eq_refl _).
  - decide_by_computation.
  - discriminate.
Defined.

Lemma execution_failures_yield_distinct_sentinels_witness :
  dom (options (State ∅ [] [])) ⊆ recognized ∧
  (returns (PCA.RunMetrics (fun _ => Hangs) sample_pca (State ∅ [] [])) (PCA.Code (-2)) ↔
     timed_out Hangs (PCA.timeout sample_pca)) ∧
  (returns (PCA.RunMetrics (fun _ => Hangs) sample_pca (State ∅ [] [])) (PCA.Code (-1)) ↔
     crashed Hangs (PCA.timeout sample_pca)) ∧
  (∀ z, returns (PCA.RunMetrics (fun _ => Hangs) sample_pca (State ∅ [] [])) (PCA.Code z) →
        z = -2 ∨ z = -1).
Proof.
  assert (dom (options (State ∅ [] [])) ⊆ recognized) as H by decide_by_computation.
  split; [exact H|].
  exact (proj1 (execution_failures_yield_distinct_sentinels (fun _ => Hangs) sample_pca
                  (State ∅ [] [])) H).
Defined.

Lemma RunMetrics_raises_only_for_construction_or_decoding_witness :
  PCA.RunMetrics (emitting "datasource.load: 1500 ms") sample_pca
    (State {["foo" := PyInt 1]} [] []) =
    (Raise (Exception "unknown parameters"),
     State {["foo" := PyInt 1]}
       [LogCall Info (Msg "Perform PCA.") (Some true);
        LogCall Fatal (MsgUnknownParameters {["foo" := PyInt 1]}) None] []) ∧
  ∃ r st',
    PCA.RunMetrics (emitting "no timer here") sample_pca (State ∅ [] []) = (Ret r, st') ∧
    ∀ output s,
      succeeded (emitting "no timer here" (pca_command sample_pca ∅))
        (PCA.timeout sample_pca) output →
      Unicode.decode output = Some s →
      Re.group_of_match PCA.pattern s = None →
      last (log st') = Some (LogCall Fatal (Msg "Can't parse the data: wrong format") None).
Proof.
  split.
  - refine (proj1 (RunMetrics_raises_only_for_construction_or_decoding
      (emitting "datasource.load: 1500 ms") sample_pca
      (State {["foo" := PyInt 1]} [] [])) _).
    decide_by_computation.
  - refine (proj2 (RunMetrics_raises_only_for_construction_or_decoding
      (emitting "no timer here") sample_pca (State ∅ [] [])) _ _).
    + decide_by_computation.
    + intros elapsed status output [= _ _ <-]. eexists. vm_compute. reflexivity.
Defined.

(** C2 (the claim against the code). An option that is not recognized makes
    [RunMetrics] raise; so does an output that is not valid UTF-8. *)
Lemma RunMetrics_lets_exceptions_through :
  (PCA.RunMetrics (emitting "datasource.load: 1500 ms") sample_pca
     (State {["foo" := PyInt 1]} [] [])).1
    = Raise (Exception "unknown parameters") ∧
  (PCA.RunMetrics (fun _ => Exits 1 0 [255%N]) sample_pca (State ∅ [] [])).1
    = Raise UnicodeDecodeError.
Proof. split; by vm_compute. Qed.

(** C6 (the claim against the code). With the options of the test suite's
    nearest-neighbour benchmark, which the PCA builder does not recognize,
    the failing stage is the command builder and [RunMetrics] returns no
    integer at all: it raises. *)
Lemma builder_failure_is_not_a_sentinel :
  (PCA.RunMetrics (emitting "datasource.load: 1500 ms") sample_pca
     (State {["k" := PyInt 3; "tau" := PyInt 10]} [] [])).1
    = Raise (Exception "unknown parameters") ∧
  ∀ z, ¬ returns
         (PCA.RunMetrics (emitting "datasource.load: 1500 ms") sample_pca
            (State {["k" := PyInt 3; "tau" := PyInt 10]} [] []))
         (PCA.Code z).
Proof.
  assert ((PCA.RunMetrics (emitting "datasource.load: 1500 ms") sample_pca
             (State {["k" := PyInt 3; "tau" := PyInt 10]} [] [])).1
          = Raise (Exception "unknown parameters")) as E by (by vm_compute).
  split; [exact E|]. intros z Hz. unfold returns in Hz. by rewrite E in Hz.
Qed.

Lemma RunTiming_returns_em_time_witness :
  Shlex.split (gmm_line (sample_gmm_with (Some (GMM.DescBytes (codes "Gaussian Mixture Model. "))))
                 EmptyString)
    = inr ["/usr/bin/gmm"; "-i"; "datasets/iris.csv"; "-v"] ∧
  In "RunTiming" GMM.methods ∧
  GMM.RunTiming sample_mlpack
    (sample_gmm_with (Some (GMM.DescBytes (codes "Gaussian Mixture Model. "))))
    (GMM.Value (PyStr EmptyString))
    (State ∅ [] [["/usr/bin/gmm"; "-h"]]) =
    (Ret (GMM.Time f0_734),
     State ∅
       [LogCall Info (Msg "Perform GMM.") (Some true);
        LogCall Info (MsgTotalTime f0_734) (Some true)]
       [["/usr/bin/gmm"; "-h"]; ["/usr/bin/gmm"; "-i"; "datasets/iris.csv"; "-v"]]).
Proof.
  split; [reflexivity|].
  refine (RunTiming_returns_em_time sample_mlpack "/usr/bin/" "/usr/bin/debug/"
    "datasets/iris.csv" (Some 240%Q) None None None (State ∅ [] [])
    (State ∅ [] [["/usr/bin/gmm"; "-h"]])
    (sample_gmm_with (Some (GMM.DescBytes (codes "Gaussian Mixture Model. "))))
    ["/usr/bin/gmm"; "-i"; "datasets/iris.csv"; "-v"] _ eq_refl _).
  - vm_compute. reflexivity.
  - exists 1%Q. split; reflexivity.
Defined.

(** C9 (the claim against the code). The class defines no [RunMetrics], and
    [RunTiming] called with an empty dictionary fails when the dictionary
    is appended to the command line. *)
Lemma GMM_has_no_RunMetrics :
  ¬ In "RunMetrics" GMM.methods ∧
  GMM.RunTiming sample_mlpack sample_gmm (GMM.Dict ∅) (State ∅ [] []) =
    (Raise TypeError,
     State ∅ [LogCall Info (Msg "Perform GMM.") (Some true)] []).
Proof.
  split; [|by vm_compute]. simpl. intros H.
  repeat (destruct H as [H|H]; [discriminate H|]). done.
Qed.

(** * [GMM.RunTiming]: the same two codes, and what a parse failure does *)

(** X7. The execution stage of [GMM.RunTiming] ends like that of
    [PCA.RunMetrics]: -2 exactly for a timeout, -1 exactly for a child that
    could not be started or failed. *)
Lemma RunTiming_execution_failures (os : list string → child) (self : GMM.t)
    (o : string) (cmd : list string) (st : state) :
  Shlex.split (gmm_line self o) = inr cmd →
  (returns (GMM.RunTiming os self (GMM.Value (PyStr o)) st) (GMM.Code (-2)) ↔
     timed_out (os cmd) (GMM.timeout self)) ∧
  (returns (GMM.RunTiming os self (GMM.Value (PyStr o)) st) (GMM.Code (-1)) ↔
     crashed (os cmd) (GMM.timeout self)).
Proof.
  intros Hsplit.
  destruct (child_cases_exclusive (os cmd) (GMM.timeout self)) as [Hex1 Hex2].
  destruct (child_cases (os cmd) (GMM.timeout self)) as [Ht|[Hc|[output Hs]]].
  - unfold returns. rewrite (RunTiming_timed_out _ _ _ cmd) by done. simpl.
    split; [done|]. split; [done|]. intros Hc. by destruct (Hex1 Ht).
  - unfold returns. rewrite (RunTiming_crashed _ _ _ cmd) by done. simpl.
    split; [|done]. split; [done|]. intros Ht. by destruct (Hex1 Ht).
  - destruct (Hex2 output Hs) as [Hnt Hnc].
    unfold returns. rewrite (RunTiming_succeeded _ _ _ cmd _ output) by done.
    cbv zeta. destruct (Re.group_of_match GMM.pattern output) as [g|];
      [destruct (Float.parse g)|]; simpl; split; split; done.
Qed.

(** When the output has no timer line, [parseTimer] returns -1, which is
    not false, so [RunTiming] goes on to read the field [em] of an [int]. *)
Example RunTiming_parse_failure_raises :
  GMM.RunTiming (emitting "no timer here") sample_gmm (GMM.Value (PyStr EmptyString))
    (State ∅ [] []) =
    (Raise (AttributeError "em"),
     State ∅
       [LogCall Info (Msg "Perform GMM.") (Some true);
        LogCall Fatal (Msg "Can't parse the data: wrong format") None]
       [["/usr/bin/gmm"; "-i"; "datasets/iris.csv"; "-v"]]).
Proof. by vm_compute. Qed.

(** A captured text that is not a numeral makes [float] raise. *)
Example RunTiming_float_failure_raises :
  (GMM.RunTiming (emitting "system: em: 1s") sample_gmm (GMM.Value (PyStr EmptyString))
     (State ∅ [] [])).1
    = Raise (ValueError "could not convert string to float").
Proof. by vm_compute. Qed.

(** The description of a successfully probed executable. *)
Example init_sets_description :
  (GMM.init sample_mlpack "/usr/bin/" "/usr/bin/debug/" "datasets/iris.csv"
     (Some 240%Q) None None None (State ∅ [] [])).1
    = Ret (sample_gmm_with (Some (GMM.DescBytes (codes "Gaussian Mixture Model. ")))).
Proof. by vm_compute. Qed.

(** A help text without the expected heading gives the empty description
    and a warning. *)
Example init_without_heading :
  GMM.init (emitting "usage: gmm") "/usr/bin/" "/usr/bin/debug/" "datasets/iris.csv"
    (Some 240%Q) None None None (State ∅ [] []) =
    (Ret (sample_gmm_with (Some (GMM.DescStr EmptyString))),
     State ∅ [LogCall Warn (Msg "Can't parse description") (Some true)]
       [["/usr/bin/gmm"; "-h"]]).
Proof. by vm_compute. Qed.

(** [PCA.RunMetrics] on a run that succeeds. *)
Example RunMetrics_runtime :
  (PCA.RunMetrics (emitting "de.lmu.ifi.dbs.elki.datasource.FileBasedDatabaseConnection.load: 1500 ms")
     sample_pca (State {["new_dimensionality" := PyInt 2]} [] [])).1
    = Ret (PCA.Metrics {["Runtime" := one_and_a_half]}).
Proof. by vm_compute. Qed.

(** * Completeness of the matcher *)

Section MatcherFirst.
Import Re.
Context {R : Type}.

Lemma greedy_star_complete c (k : list N → option R) a b :
  forallb c a = true → is_Some (k b) → is_Some (greedy_star c k (a ++ b)).
Proof.
  intros Ha Hk. induction a as [|x a IH]; simpl.
  - destruct b as [|y b]; [done|]. simpl.
    destruct (c y); [|done]. by destruct (greedy_star c k b).
  - apply andb_true_iff in Ha as [-> Ha].
    destruct (IH Ha) as [r ->]. done.
Qed.

Lemma lazy_star_complete c (k : list N → option R) a b :
  forallb c a = true → is_Some (k b) → is_Some (lazy_star c k (a ++ b)).
Proof.
  intros Ha Hk. induction a as [|x a IH]; simpl.
  - destruct Hk as [r Hk]. destruct b; simpl; by rewrite Hk.
  - apply andb_true_iff in Ha as [-> Ha].
    destruct (k (x :: a ++ b)); [done|]. by apply IH.
Qed.

Lemma match_items_complete p (k : list N → option R) a b :
  consumes p a → is_Some (k b) → is_Some (match_items p k (a ++ b)).
Proof.
  intros Hp Hk. induction Hp as [|c p x w Hx Hw IH|g c p a w Ha Hw IH]; simpl.
  - done.
  - by rewrite Hx.
  - rewrite <- app_assoc.
    destruct g; [by apply greedy_star_complete|by apply lazy_star_complete].
Qed.

(** A lazy repetition stops at the first position where what follows
    matches. *)
Lemma lazy_star_first c (k : list N → option R) s r :
  lazy_star c k s = Some r →
  ∃ a b, s = a ++ b ∧ forallb c a = true ∧ k b = Some r ∧
    ∀ a' b', s = a' ++ b' → (length a' < length a)%nat → k b' = None.
Proof.
  induction s as [|x s IH]; simpl.
  - destruct (k []) eqn:E; [|discriminate].
    intros [= ->]. exists [], []. split_and!; try done. simpl. lia.
  - destruct (k (x :: s)) eqn:E.
    + intros [= ->]. exists [], (x :: s). split_and!; try done. simpl. lia.
    + destruct (c x) eqn:Ec; [|discriminate].
      intros (a & b & -> & Ha & Hk & Hmin)%IH.
      exists (x :: a), b. split_and!; [done|by simpl; rewrite Ec|done|].
      intros a' b' Heq Hlen. destruct a' as [|y a'].
      * simpl in Heq. by subst b'.
      * simpl in Heq, Hlen. injection Heq as -> Heq.
        apply (Hmin a'); [done|lia].
Qed.

End MatcherFirst.

Lemma group_of_match_complete p a g b rest :
  consumes (Re.before p) a → consumes (Re.inside p) g → consumes (Re.after p) b →
  is_Some (Re.group_of_match p (a ++ g ++ b ++ rest)).
Proof.
  intros Ha Hg Hb. unfold Re.group_of_match.
  apply match_items_complete; [done|].
  apply match_items_complete; [done|].
  by apply match_items_complete.
Qed.

Lemma consumes_lit_iff w p x :
  consumes (Re.lit w ++ p) x ↔ ∃ y, x = codes w ++ y ∧ consumes p y.
Proof.
  unfold Re.lit. generalize (codes w). intros l. revert x.
  induction l as [|a l IH]; intros x; simpl.
  - split; [by exists x|by intros (y & -> & ?)].
  - split.
    + intros H. inversion H as [|c p' x' w' Hx Hw|]; subst.
      apply IH in Hw as (y & -> & Hy). apply N.eqb_eq in Hx as ->. by exists y.
    + intros (y & -> & Hy). constructor; [apply N.eqb_refl|]. apply IH. by exists y.
Qed.

Lemma consumes_many_iff g c p x :
  consumes (Re.Many g c :: p) x ↔ ∃ a y, x = a ++ y ∧ forallb c a = true ∧ consumes p y.
Proof.
  split.
  - intros H. inversion H; subst. eauto.
  - intros (a & y & -> & Ha & Hy). by constructor.
Qed.

Lemma consumes_one_iff c p x :
  consumes (Re.One c :: p) x ↔ ∃ a y, x = a :: y ∧ c a = true ∧ consumes p y.
Proof.
  split.
  - intros H. inversion H; subst. eauto.
  - intros (a & y & -> & Ha & Hy). by constructor.
Qed.

Lemma consumes_empty_iff x : consumes [] x ↔ x = [].
Proof. split; [by inversion 1|intros ->; constructor]. Qed.

(** * When the patterns match *)

Lemma forallb_any l : forallb Re.any l = true.
Proof. by induction l. Qed.

Lemma pca_pattern_matches s :
  is_Some (Re.group_of_match PCA.pattern s) ↔ timer_line s.
Proof.
  split.
  - intros [g (a & b & rest & -> & Ha & Hg & Hb)%group_of_match_sound].
    unfold PCA.pattern in Ha, Hg, Hb. cbn [Re.before Re.inside Re.after] in Ha, Hg, Hb.
    apply consumes_many_iff in Ha as (pre & y1 & -> & _ & Ha).
    apply consumes_lit_iff in Ha as (y2 & -> & Ha).
    apply consumes_many_iff in Ha as (mid & y3 & -> & Hmid & Ha).
    apply consumes_lit_iff in Ha as (y4 & -> & Ha).
    apply consumes_many_iff in Ha as (ws & y5 & -> & Hws & ->%consumes_empty_iff).
    apply consumes_one_iff in Hg as (d & y6 & -> & Hd & Hg).
    apply consumes_many_iff in Hg as (ds & y7 & -> & Hds & ->%consumes_empty_iff).
    apply consumes_many_iff in Hb as (ws' & y8 & -> & Hws' & Hb).
    apply consumes_lit_iff in Hb as (y9 & -> & Hb).
    apply consumes_many_iff in Hb as (tl & y10 & -> & _ & ->%consumes_empty_iff).
    exists pre, mid, ws, (d :: ds), ws', (tl ++ rest).
    split_and!; try done.
    + by rewrite !app_nil_r, <- !app_assoc.
    + simpl. by rewrite Hd, Hds.
  - intros (pre & mid & ws & digits & ws' & rest & -> & Hmid & Hws & Hne & Hd & Hws').
    destruct digits as [|d ds]; [done|]. apply andb_true_iff in Hd as [Hd Hds].
    replace (pre ++ codes "datasource" ++ mid ++ codes ".load:" ++ ws ++ (d :: ds)
               ++ ws' ++ codes "ms" ++ rest)
      with ((pre ++ codes "datasource" ++ mid ++ codes ".load:" ++ ws) ++ (d :: ds)
               ++ (ws' ++ codes "ms") ++ rest)
      by (by rewrite <- !app_assoc).
    apply group_of_match_complete; unfold PCA.pattern; cbn [Re.before Re.inside Re.after].
    + apply consumes_many_iff. exists pre, (codes "datasource" ++ mid ++ codes ".load:" ++ ws).
      split_and!; [done|apply forallb_any|].
      apply consumes_lit_iff. eexists. split; [done|].
      apply consumes_many_iff. exists mid, (codes ".load:" ++ ws). split_and!; [done..|].
      apply consumes_lit_iff. eexists. split; [done|].
      apply consumes_many_iff. exists ws, []. split_and!; [by rewrite app_nil_r|done|constructor].
    + apply consumes_one_iff. exists d, ds. split_and!; [done..|].
      apply consumes_many_iff. exists ds, []. split_and!; [by rewrite app_nil_r|done|constructor].
    + apply consumes_many_iff. exists ws', (codes "ms"). split_and!; [done..|].
      apply (consumes_lit_iff "ms" [Re.Many false Re.any]). exists []. split; [done|].
      apply consumes_many_iff. exists [], []. split_and!; [done..|constructor].
Qed.

Lemma gmm_pattern_matches s :
  is_Some (Re.group_of_match GMM.pattern s) ↔ em_line s.
Proof.
  split.
  - intros [g (a & b & rest & -> & Ha & Hg & Hb)%group_of_match_sound].
    unfold GMM.pattern in Ha, Hg, Hb. cbn [Re.before Re.inside Re.after] in Ha, Hg, Hb.
    apply consumes_many_iff in Ha as (pre & y1 & -> & _ & Ha).
    apply (consumes_lit_iff "em:" []) in Ha as (y2 & -> & ->%consumes_empty_iff).
    apply consumes_lit_iff in Hb as (y3 & -> & Hb).
    exists pre, g, (y3 ++ rest). by rewrite !app_nil_r, <- !app_assoc.
  - intros (pre & g & rest & ->).
    replace (pre ++ codes "em:" ++ g ++ codes "s" ++ rest)
      with ((pre ++ codes "em:") ++ g ++ codes "s" ++ rest)
      by (by rewrite <- !app_assoc).
    apply group_of_match_complete; unfold GMM.pattern; cbn [Re.before Re.inside Re.after].
    + apply consumes_many_iff. exists pre, (codes "em:"). split_and!; [done|apply forallb_any|].
      apply (consumes_lit_iff "em:" []). exists []. split; [done|constructor].
    + apply consumes_many_iff. exists g, []. split_and!; [by rewrite app_nil_r|apply forallb_any|constructor].
    + apply (consumes_lit_iff "s" [Re.Many false Re.any]). exists []. split; [done|].
      apply consumes_many_iff. exists [], []. split_and!; [done..|constructor].
Qed.

Lemma gmm_group_spec s g :
  Re.group_of_match GMM.pattern s = Some g →
  ∃ pre rest,
    s = pre ++ codes "em:" ++ g ++ codes "s" ++ rest ∧
    (115%N ∉ g) ∧
    ∀ pre' t, s = pre' ++ codes "em:" ++ t → (length pre' < length pre)%nat → 115%N ∉ t.
Proof.
  unfold Re.group_of_match, GMM.pattern. cbn [Re.before Re.inside Re.after].
  set (K := fun s1 : list N => Re.match_items [Re.Many false Re.any] _ s1).
  change (Re.match_items (Re.Many false Re.any :: Re.lit "em:") K s)
    with (Re.lazy_star Re.any (Re.match_items (Re.lit "em:") K) s).
  intros (pre & b & -> & _ & Hb & Hmin)%lazy_star_first.
  apply match_items_sound in Hb as (x & y & -> & Hx & Hy).
  apply (consumes_lit_iff "em:" []) in Hx as (? & -> & ->%consumes_empty_iff).
  rewrite app_nil_r in *.
  unfold K in Hy.
  change (Re.match_items [Re.Many false Re.any] ?k y)
    with (Re.lazy_star Re.any (fun s2 => k s2) y) in Hy.
  apply lazy_star_first in Hy as (g' & b2 & -> & _ & Hb2 & Hmin2).
  pose proof Hb2 as (x2 & rest & -> & Hx2 & [= <-])%match_items_sound.
  apply consumes_lit_iff in Hx2 as (tl & -> & _).
  rewrite length_app, Nat.add_sub, take_app_length.
  exists pre, (tl ++ rest). split_and!.
  - by rewrite <- !app_assoc.
  - intros (u & v & ->)%list_elem_of_split.
    specialize (Hmin2 u (115%N :: v ++ (codes "s" ++ tl) ++ rest)).
    rewrite <- app_assoc in Hmin2. specialize (Hmin2 eq_refl).
    rewrite length_app in Hmin2. simpl in Hmin2. specialize (Hmin2 ltac:(lia)).
    simpl in Hmin2. by destruct (v ++ _) in Hmin2.
  - intros pre' t Heq Hlen (u & v & ->)%list_elem_of_split.
    specialize (Hmin pre' _ Heq Hlen).
    assert (is_Some (Re.match_items (Re.lit "em:") K (codes "em:" ++ u ++ 115%N :: v))) as [r Hr].
    { replace (codes "em:" ++ u ++ 115%N :: v) with (codes "em:" ++ (u ++ 115%N :: v))
        by done.
      apply match_items_complete.
      { apply (consumes_lit_iff "em:" []). exists []. split; [done|constructor]. }
      unfold K. apply match_items_complete.
      { apply consumes_many_iff. exists u, []. split_and!;
          [by rewrite app_nil_r|apply forallb_any|constructor]. }
      change (115%N :: v) with (codes "s" ++ v).
      apply match_items_complete; [|done].
      apply (consumes_lit_iff "s" [Re.Many false Re.any]). exists []. split; [done|].
      apply consumes_many_iff. exists [], []. split_and!; [done..|constructor]. }
    congruence.
Qed.

(** * The sign of the computed time *)

Lemma shr_1_nonneg mrs : 0 <= shr_m mrs → 0 <= shr_m (shr_1 mrs).
Proof.
  destruct mrs as [m r s]. simpl. intros Hm.
  destruct m as [|p|p]; [done| |lia]. by destruct p.
Qed.

Lemma iter_shr_1_nonneg n mrs :
  0 <= shr_m mrs → 0 <= shr_m (SpecFloat.iter_pos shr_1 n mrs).
Proof.
  revert mrs. induction n as [n IH|n IH|]; intros mrs Hm; simpl.
  - by apply IH, IH, shr_1_nonneg.
  - by apply IH, IH.
  - by apply shr_1_nonneg.
Qed.

Lemma shr_fexp_nonneg m e l :
  0 <= m → 0 <= shr_m (shr_fexp Float.prec Float.emax m e l).1.
Proof.
  intros Hm. unfold shr_fexp, shr.
  assert (0 <= shr_m (shr_record_of_loc m l)) as H0.
  { unfold shr_record_of_loc. by destruct l as [|[]]. }
  destruct (_ - e) as [|n|n]; simpl; [done| |done].
  by apply iter_shr_1_nonneg.
Qed.

Lemma binary_round_aux_sign sx mx ex lx :
  0 <= mx →
  match binary_round_aux Float.prec Float.emax sx mx ex lx with
  | S754_zero s | S754_infinity s | S754_finite s _ _ => s = sx
  | S754_nan => False
  end.
Proof.
  intros Hm. unfold binary_round_aux.
  pose proof (shr_fexp_nonneg mx ex lx Hm) as H1.
  destruct (shr_fexp Float.prec Float.emax mx ex lx) as [mrs' e']. simpl in H1.
  assert (0 <= round_nearest_even (shr_m mrs') (loc_of_shr_record mrs')) as H2.
  { unfold round_nearest_even. destruct (loc_of_shr_record mrs') as [|[]]; try done.
    - destruct (Z.even _); lia.
    - lia. }
  pose proof (shr_fexp_nonneg _ e' loc_Exact H2) as H3.
  destruct (shr_fexp Float.prec Float.emax _ e' loc_Exact) as [mrs'' e'']. simpl in H3.
  destruct (shr_m mrs'') as [|p|p]; [done| |lia].
  by destruct (e'' <=? _).
Qed.

Lemma of_N_nonnegative n : nonnegative (Float.of_N n).
Proof.
  unfold Float.of_N, Float.of_decimal. destruct n as [|p]; [done|].
  change (0 <=? 0) with true. cbv iota.
  unfold binary_normalize.
  destruct (Z.pos p * 10 ^ 0) as [|q|q] eqn:E; [done| |lia].
  unfold binary_round. destruct (shl_align _ _ _) as [mz ez].
  pose proof (binary_round_aux_sign false (Z.pos mz) ez loc_Exact ltac:(lia)) as H.
  unfold nonnegative. by destruct (binary_round_aux _ _ _ _ _ _).
Qed.

Lemma div_1000_nonnegative x :
  nonnegative x → nonnegative (Float.div x (Float.of_N 1000)).
Proof.
  intros Hx. unfold Float.div.
  change (Float.of_N 1000) with (S754_finite false 8796093022208000 (-43)).
  destruct x as [s|s| |s m e]; simpl in Hx; subst; try done.
  unfold SFdiv, SFdiv_core_binary.
  set (m' := match _ - _ with Z.pos _ => _ | Z0 => _ | Z.neg _ => _ end).
  assert (0 <= m') as Hm'.
  { unfold m'. destruct (_ - _); [lia| |lia]. apply Z.shiftl_nonneg. lia. }
  pose proof (Z.div_pos m' 8796093022208000 Hm' ltac:(lia)) as Hq.
  unfold Z.div in Hq. destruct (Z.div_eucl m' _) as [q r].
  pose proof (binary_round_aux_sign (xorb false false) q
    (Z.min (fexp Float.prec Float.emax
       (Zdigits2 (Z.pos m) + e - (Zdigits2 8796093022208000 + -43))) (e - -43))
    (new_location 8796093022208000 r) Hq) as H.
  unfold nonnegative. by destruct (binary_round_aux _ _ _ _ _ _).
Qed.

(** * Further properties of [PCA] *)

(** X1. [parseTimer] finds a timing exactly in the outputs that contain a
    timer line: [datasource], characters other than blanks, [.load:],
    optional blanks, decimal digits, optional blanks and [ms].  In every
    other decodable output it logs the failure and returns -1. *)
Theorem parseTimer_succeeds_iff_timer_line
    (self : PCA.t) (data : bytes) (s : text) (st : state) :
  Unicode.decode data = Some s →
  ((∃ x, PCA.parseTimer self data st = (Ret (Timer x), st)) ↔ timer_line s) ∧
  (PCA.parseTimer self data st =
     (Ret (IntValue (-1)),
      State (options st)
        (log st ++ [LogCall Fatal (Msg "Can't parse the data: wrong format") None])
        (runs st))
   ↔ ¬ timer_line s).
Proof.
  intros Hd. rewrite parseTimer_cases, Hd, <- pca_pattern_matches.
  destruct (Re.group_of_match PCA.pattern s) as [g|]; split; split.
  - by eexists.
  - by eexists.
  - done.
  - intros H. by destruct H.
  - by intros [x ?].
  - by intros [? ?].
  - by intros _ [? ?].
  - done.
Qed.

Lemma parseTimer_succeeds_iff_timer_line_witness :
  Unicode.decode (codes "ELKI datasource.load: 1500 ms") = Some (codes "ELKI datasource.load: 1500 ms") ∧
  ((∃ x, PCA.parseTimer sample_pca (codes "ELKI datasource.load: 1500 ms") (State ∅ [] [])
         = (Ret (Timer x), State ∅ [] []))
   ↔ timer_line (codes "ELKI datasource.load: 1500 ms")).
Proof.
  split; [reflexivity|].
  exact (proj1 (parseTimer_succeeds_iff_timer_line sample_pca
    (codes "ELKI datasource.load: 1500 ms") (codes "ELKI datasource.load: 1500 ms")
    (State ∅ [] []) eq_refl)).
Defined.

(** X2. The only exception [parseTimer] raises is [UnicodeDecodeError], and
    it raises it exactly when the output is not valid UTF-8; nothing is
    logged then.  The conversion of the captured digits never fails. *)
Theorem parseTimer_raises_only_UnicodeDecodeError
    (self : PCA.t) (data : bytes) (st : state) :
  (Unicode.decode data = None ↔
     PCA.parseTimer self data st = (Raise UnicodeDecodeError, st)) ∧
  (∀ e st', PCA.parseTimer self data st = (Raise e, st') →
            e = UnicodeDecodeError ∧ st' = st).
Proof.
  rewrite parseTimer_cases.
  destruct (Unicode.decode data) as [s|].
  - destruct (Re.group_of_match PCA.pattern s); split; try done; by split.
  - split; [done|]. by intros e st' [= <- <-].
Qed.

(** X3. Whatever [RunMetrics] returns as a metrics dictionary has no key
    other than [Runtime], and the value stored there is never negative and
    never NaN. *)
Theorem RunMetrics_runtime_is_nonnegative
    (os : list string → child) (self : PCA.t) (st : state)
    (m : gmap string Float.float) :
  returns (PCA.RunMetrics os self st) (PCA.Metrics m) →
  dom m ⊆ {["Runtime"]} ∧ ∀ x, m !! "Runtime" = Some x → nonnegative x.
Proof.
  unfold returns. intros Hr.
  destruct (decide (dom (options st) ⊆ recognized)) as [H|Hn].
  2:{ by rewrite RunMetrics_builder_failure in Hr by by apply remaining_nonempty. }
  destruct (child_cases (os (pca_command self (options st))) (PCA.timeout self))
    as [Ht|[Hc|[output Hs]]].
  - by rewrite RunMetrics_timed_out in Hr.
  - by rewrite RunMetrics_crashed in Hr.
  - rewrite (RunMetrics_parse_outcome _ _ _ output) in Hr by done. cbv zeta in Hr.
    destruct (Unicode.decode output) as [s|]; [|done].
    destruct (Re.group_of_match PCA.pattern s) as [g|]; simpl in Hr.
    + injection Hr as <-. split.
      * rewrite dom_singleton_L. done.
      * intros x. rewrite lookup_singleton_eq. intros [= <-].
        apply div_1000_nonnegative, of_N_nonnegative.
    + injection Hr as <-. split; [by rewrite dom_empty_L|]. by rewrite lookup_empty.
Qed.

Lemma RunMetrics_runtime_is_nonnegative_witness :
  returns (PCA.RunMetrics (emitting "datasource.load: 1500 ms") sample_pca (State ∅ [] []))
    (PCA.Metrics {["Runtime" := one_and_a_half]}) ∧
  dom ({["Runtime" := one_and_a_half]} : gmap string Float.float) ⊆ {["Runtime"]} ∧
  ∀ x, ({["Runtime" := one_and_a_half]} : gmap string Float.float) !! "Runtime" = Some x →
       nonnegative x.
Proof.
  assert (returns (PCA.RunMetrics (emitting "datasource.load: 1500 ms") sample_pca
                     (State ∅ [] [])) (PCA.Metrics {["Runtime" := one_and_a_half]})) as H
    by (vm_compute; reflexivity).
  split; [exact H|].
  exact (RunMetrics_runtime_is_nonnegative (emitting "datasource.load: 1500 ms")
           sample_pca (State ∅ [] []) _ H).
Defined.

Lemma RunMetrics_final_state (os : list string → child) (self : PCA.t) (st : state) :
  options (PCA.RunMetrics os self st).2 = remaining (options st) ∧
  runs (PCA.RunMetrics os self st).2 =
    runs st ++ (if decide (dom (options st) ⊆ recognized)
                then [pca_command self (options st)] else []) ∧
  ∃ l, log (PCA.RunMetrics os self st).2 =
         log st ++ LogCall Info (Msg "Perform PCA.") (Some (PCA.verbose self)) :: l.
Proof.
  destruct (decide (dom (options st) ⊆ recognized)) as [H|Hn].
  2:{ rewrite RunMetrics_builder_failure by by apply remaining_nonempty. simpl.
      split_and!; [done|by rewrite app_nil_r|by eexists]. }
  rewrite (remaining_empty _ H).
  destruct (child_cases (os (pca_command self (options st))) (PCA.timeout self))
    as [Ht|[Hc|[output Hs]]].
  - rewrite RunMetrics_timed_out by done. simpl. split_and!; [done..|by eexists].
  - rewrite RunMetrics_crashed by done. simpl. split_and!; [done..|by eexists].
  - rewrite (RunMetrics_parse_outcome _ _ _ output) by done. cbv zeta.
    destruct (Unicode.decode output) as [s|].
    + destruct (Re.group_of_match PCA.pattern s); simpl;
        (split_and!; [done..|]); rewrite <- app_assoc; by eexists.
    + simpl. split_and!; [done..|]. by exists [].
Qed.

(** X4. Whatever the outcome, [RunMetrics] leaves in the caller's dictionary
    only the keys that are not recognized, and it hands exactly one command
    to [check_output] when every key was recognized, none otherwise; the
    first thing logged is the start message. *)
Theorem RunMetrics_side_effects
    (os : list string → child) (self : PCA.t) (st : state) :
  options (PCA.RunMetrics os self st).2 = remaining (options st) ∧
  runs (PCA.RunMetrics os self st).2 =
    runs st ++ (if decide (dom (options st) ⊆ recognized)
                then [pca_command self (options st)] else []) ∧
  ∃ l, log (PCA.RunMetrics os self st).2 =
         log st ++ LogCall Info (Msg "Perform PCA.") (Some (PCA.verbose self)) :: l.
Proof. apply RunMetrics_final_state. Qed.

(** X5. A dictionary whose keys were all recognized is empty after
    [RunMetrics]: a second call with the same dictionary runs the command
    without any option. *)
Theorem RunMetrics_twice_loses_options
    (os : list string → child) (self : PCA.t) (st : state) :
  dom (options st) ⊆ recognized →
  runs (PCA.RunMetrics os self (PCA.RunMetrics os self st).2).2 =
    runs st ++ [pca_command self (options st); pca_command self ∅].
Proof.
  intros H.
  destruct (RunMetrics_final_state os self st) as (Ho & Hr & _).
  destruct (RunMetrics_final_state os self (PCA.RunMetrics os self st).2) as (_ & Hr2 & _).
  rewrite Hr2, Hr, Ho, (remaining_empty _ H).
  rewrite decide_True by done.
  rewrite decide_True by (rewrite dom_empty_L; apply empty_subseteq).
  by rewrite <- app_assoc.
Qed.

Lemma RunMetrics_twice_loses_options_witness :
  dom (options (State {["new_dimensionality" := PyInt 2]} [] [])) ⊆ recognized ∧
  runs (PCA.RunMetrics (emitting "datasource.load: 1500 ms") sample_pca
          (PCA.RunMetrics (emitting "datasource.load: 1500 ms") sample_pca
             (State {["new_dimensionality" := PyInt 2]} [] [])).2).2 =
    [] ++ [pca_command sample_pca {["new_dimensionality" := PyInt 2]};
           pca_command sample_pca ∅].
Proof.
  assert (dom (options (State {["new_dimensionality" := PyInt 2]} [] [])) ⊆ recognized)
    as H by decide_by_computation.
  split; [exact H|].
  exact (RunMetrics_twice_loses_options (emitting "datasource.load: 1500 ms") sample_pca
           (State {["new_dimensionality" := PyInt 2]} [] []) H).
Defined.

Lemma parseTimer_raises_only_UnicodeDecodeError_witness :
  Unicode.decode [255%N] = None ∧
  PCA.parseTimer sample_pca [255%N] (State ∅ [] []) = (Raise UnicodeDecodeError, State ∅ [] []).
Proof.
  split; [reflexivity|].
  exact (proj1 (proj1 (parseTimer_raises_only_UnicodeDecodeError sample_pca [255%N]
                         (State ∅ [] []))) eq_refl).
Defined.

(** X6. [process_options] looks at the presence of [whiten], never at its
    value: [whiten] set to [False] selects the normalizing filter chain
    just as [True] does. *)
Theorem process_options_ignores_whiten_value
    (self : PCA.t) (o : gmap string pyvalue) (v v' : pyvalue)
    (l : list log_call) (r : list (list string)) :
  PCA.process_options self (State (<["whiten" := v]> o) l r) =
  PCA.process_options self (State (<["whiten" := v']> o) l r) ∧
  ∀ cmd st', PCA.process_options self (State (<["whiten" := v]> o) l r) = (Ret cmd, st') →
    take 2 cmd =
      ["-dbc.filter";
       "normalization.columnwise.AttributeWiseVarianceNormalization,transform.GlobalPrincipalComponentAnalysisTransform"].
Proof.
  assert (∀ w, remaining (<["whiten" := w]> o) = remaining o) as Hrem.
  { intros w. unfold remaining. by rewrite delete_insert_eq. }
  assert (∀ w, filter_tokens (<["whiten" := w]> o) =
            ["-dbc.filter";
             "normalization.columnwise.AttributeWiseVarianceNormalization,transform.GlobalPrincipalComponentAnalysisTransform"])
    as Hf.
  { intros w. unfold filter_tokens. by rewrite lookup_insert_eq. }
  assert (∀ w, dimension_tokens (<["whiten" := w]> o) = dimension_tokens o) as Hd.
  { intros w. unfold dimension_tokens. by rewrite lookup_insert_ne. }
  rewrite !process_options_run. simpl. rewrite !Hrem, !Hf, !Hd. split; [done|].
  intros cmd st'. destruct (0 <? _)%nat; [done|]. by intros [= <- _].
Qed.

Lemma process_options_ignores_whiten_value_witness :
  PCA.process_options sample_pca (State (<["whiten" := PyBool false]> ∅) [] []) =
    (Ret ["-dbc.filter";
          "normalization.columnwise.AttributeWiseVarianceNormalization,transform.GlobalPrincipalComponentAnalysisTransform"],
     State ∅ [] []) ∧
  take 2 ["-dbc.filter";
          "normalization.columnwise.AttributeWiseVarianceNormalization,transform.GlobalPrincipalComponentAnalysisTransform"] =
    ["-dbc.filter";
     "normalization.columnwise.AttributeWiseVarianceNormalization,transform.GlobalPrincipalComponentAnalysisTransform"].
Proof.
  assert (PCA.process_options sample_pca (State (<["whiten" := PyBool false]> ∅) [] []) =
    (Ret ["-dbc.filter";
          "normalization.columnwise.AttributeWiseVarianceNormalization,transform.GlobalPrincipalComponentAnalysisTransform"],
     State ∅ [] [])) as H by (vm_compute; reflexivity).
  split; [exact H|].
  exact (proj2 (process_options_ignores_whiten_value sample_pca ∅ (PyBool false)
                  (PyBool true) [] []) _ _ H).
Defined.

(** * More about [shlex.split] *)

Lemma plain_char_spec c :
  plain_char c = true →
  Shlex.whitespace c = false ∧ Shlex.quote c = false ∧ Shlex.escape c = false.
Proof.
  unfold plain_char. intros [[H1 H2]%andb_true_iff H3]%andb_true_iff.
  by rewrite negb_true_iff in H1, H2, H3.
Qed.

Lemma snoc_app tok c w : Shlex.snoc tok c +:+ w = tok +:+ String c w.
Proof. unfold Shlex.snoc. by rewrite string_app_assoc. Qed.

Lemma string_app_nil_r (s : string) : s +:+ EmptyString = s.
Proof. induction s as [|c s IH]; [done|]. by rewrite string_app_cons, IH. Qed.

(** A run of plain characters goes into the word under way. *)
Lemma tokens_word_plain w tok quoted acc s :
  plain w = true →
  Shlex.tokens Shlex.Word tok quoted acc (w +:+ s)
    = Shlex.tokens Shlex.Word (tok +:+ w) quoted acc s.
Proof.
  revert tok. induction w as [|c w IH]; intros tok Hw.
  - by rewrite string_app_nil_r.
  - simpl in Hw. apply andb_true_iff in Hw as [Hc Hw].
    destruct (plain_char_spec c Hc) as (H1 & H2 & H3).
    rewrite string_app_cons. simpl. rewrite H1, H2, H3, IH by done.
    by rewrite snoc_app.
Qed.

(** The tokens already produced stay in front. *)
Lemma tokens_acc m tok quoted pre acc s :
  Shlex.tokens m tok quoted (pre ++ acc) s =
    match Shlex.tokens m tok quoted acc s with
    | inr l => inr (pre ++ l)
    | inl e => inl e
    end.
Proof.
  assert (∀ t q acc', Shlex.emit t q (pre ++ acc') = pre ++ Shlex.emit t q acc') as Hemit.
  { intros t q acc'. unfold Shlex.emit. destruct (_ && _); [done|]. by rewrite app_assoc. }
  revert m tok quoted acc. induction s as [|c s IH]; intros m tok quoted acc; simpl.
  - destruct m; by rewrite ?Hemit.
  - destruct m as [| |q|back].
    + destruct (Shlex.whitespace c), (Shlex.escape c), (Shlex.quote c); apply IH.
    + destruct (Shlex.whitespace c), (Shlex.escape c), (Shlex.quote c);
        rewrite ?Hemit; apply IH.
    + destruct (bool_decide (c = q)), (Shlex.escape c), (bool_decide (q = "034"%char));
        apply IH.
    + apply IH.
Qed.

(** A plain word followed by a blank is the first token. *)
Lemma split_plain_word w rest :
  plain w = true → w ≠ EmptyString →
  Shlex.split (w +:+ String " " rest) =
    match Shlex.split rest with
    | inr l => inr (w :: l)
    | inl e => inl e
    end.
Proof.
  intros Hw Hne. destruct w as [|c w]; [done|]. clear Hne.
  pose proof Hw as Hw'. simpl in Hw'. apply andb_true_iff in Hw' as [Hc Hw'].
  destruct (plain_char_spec c Hc) as (H1 & H2 & H3).
  unfold Shlex.split. rewrite string_app_cons. simpl. rewrite H1, H2, H3.
  rewrite tokens_word_plain by done. simpl.
  change (Shlex.emit (String c EmptyString +:+ w) false [])
    with ([String c w] ++ []).
  apply tokens_acc.
Qed.

(** Without quote and backslash nothing can go wrong. *)
Lemma tokens_unquoted m tok quoted acc s :
  unquoted s = true → m = Shlex.Between ∨ m = Shlex.Word →
  ∃ cmd, Shlex.tokens m tok quoted acc s = inr cmd.
Proof.
  revert m tok quoted acc. induction s as [|c s IH]; intros m tok quoted acc Hs Hm; simpl.
  - destruct Hm as [-> | ->]; by eexists.
  - simpl in Hs. apply andb_true_iff in Hs as [[H2 H3]%andb_true_iff Hs].
    rewrite negb_true_iff in H2, H3.
    destruct Hm as [-> | ->]; rewrite ?H2, ?H3; destruct (Shlex.whitespace c);
      apply IH; auto.
Qed.

Lemma plain_app a b : plain (a +:+ b) = plain a && plain b.
Proof.
  induction a as [|c a IH]; [done|]. rewrite string_app_cons. simpl.
  by rewrite IH, andb_assoc.
Qed.

Lemma unquoted_app a b : unquoted (a +:+ b) = unquoted a && unquoted b.
Proof.
  induction a as [|c a IH]; [done|]. rewrite string_app_cons. simpl.
  by rewrite IH, !andb_assoc.
Qed.

Lemma app_not_empty a c b : a +:+ String c b ≠ EmptyString.
Proof. by destruct a. Qed.

(** The command lines of [GMM] for a plain path: the executable, [-i] and
    what the rest of the line splits into. *)
Lemma split_gmm_line p dataset o :
  plain p = true →
  Shlex.split ((p +:+ "gmm -i " +:+ dataset +:+ " -v ") +:+ o) =
    match Shlex.split (dataset +:+ " -v " +:+ o) with
    | inr tail => inr ((p +:+ "gmm") :: "-i" :: tail)
    | inl e => inl e
    end.
Proof.
  intros Hp.
  replace ((p +:+ "gmm -i " +:+ dataset +:+ " -v ") +:+ o)
    with ((p +:+ "gmm") +:+ String " " ("-i" +:+ String " " (dataset +:+ " -v " +:+ o))).
  2:{ rewrite !string_app_assoc. f_equal. }
  rewrite split_plain_word; [| |apply app_not_empty].
  2:{ rewrite plain_app, Hp. done. }
  rewrite split_plain_word by done.
  by destruct (Shlex.split _).
Qed.

(** * Further properties of [GMM] *)

Lemma RunTiming_final_runs os self o cmd st :
  Shlex.split (gmm_line self o) = inr cmd →
  runs (GMM.RunTiming os self (GMM.Value (PyStr o)) st).2 = runs st ++ [cmd].
Proof.
  intros Hsplit.
  destruct (child_cases (os cmd) (GMM.timeout self)) as [Ht|[Hc|[output Hs]]].
  - by rewrite (RunTiming_timed_out _ _ _ cmd).
  - by rewrite (RunTiming_crashed _ _ _ cmd).
  - rewrite (RunTiming_succeeded _ _ _ cmd _ output) by done. cbv zeta.
    destruct (Re.group_of_match GMM.pattern output) as [g|]; [|done].
    by destruct (Float.parse g).
Qed.

Lemma RunTiming_execution_failures_witness :
  Shlex.split (gmm_line sample_gmm EmptyString)
    = inr ["/usr/bin/gmm"; "-i"; "datasets/iris.csv"; "-v"] ∧
  (returns (GMM.RunTiming (fun _ => Hangs) sample_gmm (GMM.Value (PyStr EmptyString))
              (State ∅ [] [])) (GMM.Code (-2)) ↔
     timed_out Hangs (GMM.timeout sample_gmm)) ∧
  (returns (GMM.RunTiming (fun _ => Hangs) sample_gmm (GMM.Value (PyStr EmptyString))
              (State ∅ [] [])) (GMM.Code (-1)) ↔
     crashed Hangs (GMM.timeout sample_gmm)).
Proof.
  split; [reflexivity|].
  exact (RunTiming_execution_failures (fun _ => Hangs) sample_gmm EmptyString
           ["/usr/bin/gmm"; "-i"; "datasets/iris.csv"; "-v"] (State ∅ [] []) eq_refl).
Defined.

(** X8. [GMM.parseTimer] finds a timing exactly in the outputs where [em:]
    is followed, somewhere later, by the letter [s]; in every other output
    it logs the failure and returns -1. *)
Theorem GMM_parseTimer_fails_iff_no_em_line
    (self : GMM.t) (data : bytes) (st : state) :
  GMM.parseTimer self data st =
    (Ret (IntValue (-1)),
     State (options st)
       (log st ++ [LogCall Fatal (Msg "Can't parse the data: wrong format") None])
       (runs st))
  ↔ ¬ em_line data.
Proof.
  rewrite <- gmm_pattern_matches. unfold GMM.parseTimer.
  destruct (Re.group_of_match GMM.pattern data) as [g|]; split.
  - unfold bind, GMM.float. by destruct (Float.parse g).
  - intros H. by destruct H.
  - by intros _ [? ?].
  - done.
Qed.

(** X9. When [GMM.parseTimer] returns a timing, the output reads
    [pre em: g s rest] where [g] holds no letter [s] and no earlier [em:]
    has an [s] after it; the timing is [float(g)], and nothing is logged. *)
Theorem GMM_parseTimer_reads_up_to_first_s
    (self : GMM.t) (data : bytes) (st st' : state) (x : Float.float) :
  GMM.parseTimer self data st = (Ret (Timer x), st') →
  st' = st ∧
  ∃ pre g rest,
    data = pre ++ codes "em:" ++ g ++ codes "s" ++ rest ∧
    (115%N ∉ g) ∧
    (∀ pre' t, data = pre' ++ codes "em:" ++ t → (length pre' < length pre)%nat →
               115%N ∉ t) ∧
    Float.parse g = Some x.
Proof.
  unfold GMM.parseTimer.
  destruct (Re.group_of_match GMM.pattern data) as [g|] eqn:Hg; [|done].
  unfold bind, GMM.float. destruct (Float.parse g) as [y|] eqn:Hy; [|done].
  intros [= <- <-]. split; [done|].
  destruct (gmm_group_spec _ _ Hg) as (pre & rest & H1 & H2 & H3).
  by exists pre, g, rest.
Qed.

Lemma GMM_parseTimer_reads_up_to_first_s_witness :
  ∃ pre g rest,
    codes "timers: em: 1.5s" = pre ++ codes "em:" ++ g ++ codes "s" ++ rest ∧
    (115%N ∉ g) ∧
    (∀ pre' t, codes "timers: em: 1.5s" = pre' ++ codes "em:" ++ t →
               (length pre' < length pre)%nat → 115%N ∉ t) ∧
    Float.parse g = Some one_and_a_half.
Proof.
  refine (proj2 (GMM_parseTimer_reads_up_to_first_s sample_gmm
    (codes "timers: em: 1.5s") (State ∅ [] []) (State ∅ [] []) one_and_a_half _)).
  vm_compute. reflexivity.
Defined.

Lemma RunTiming_not_str os self arg st :
  (∀ o, arg ≠ GMM.Value (PyStr o)) →
  GMM.RunTiming os self arg st =
    (Raise TypeError,
     State (options st)
       (log st ++ [LogCall Info (Msg "Perform GMM.") (Some (GMM.verbose self))])
       (runs st)).
Proof.
  intros Harg. unfold GMM.RunTiming, bind at 1.
  unfold Log.Info, Log.call at 1. unfold bind at 1, GMM.concat.
  destruct arg as [[| | |o]|d]; try done. by destruct (Harg o).
Qed.

Lemma RunTiming_split_error os self o err st :
  Shlex.split (gmm_line self o) = inl err →
  GMM.RunTiming os self (GMM.Value (PyStr o)) st =
    (Raise (ValueError match err with
                       | Shlex.NoClosingQuotation => "No closing quotation"
                       | Shlex.NoEscapedCharacter => "No escaped character"
                       end),
     State (options st)
       (log st ++ [LogCall Info (Msg "Perform GMM.") (Some (GMM.verbose self))])
       (runs st)).
Proof.
  intros Hsplit. unfold GMM.RunTiming, bind at 1.
  unfold Log.Info, Log.call at 1. unfold bind at 1, GMM.concat, ret at 1.
  unfold bind at 1, GMM.split. unfold gmm_line in Hsplit. rewrite Hsplit.
  by destruct err.
Qed.

(** X10. The exceptions of [RunTiming]: [TypeError] for options that are
    not a [str] and [ValueError] for a command line with an open quote or a
    trailing backslash, both before anything is run; after a run that
    succeeded, [AttributeError] when the output has no timer line and
    [ValueError] when the text found is not a numeral.  There are no
    others. *)
Theorem RunTiming_exceptions
    (os : list string → child) (self : GMM.t) (arg : GMM.argument)
    (st st' : state) (e : exn) :
  GMM.RunTiming os self arg st = (Raise e, st') →
  (e = TypeError ∧ (∀ o, arg ≠ GMM.Value (PyStr o)) ∧ runs st' = runs st) ∨
  (∃ o err,
     arg = GMM.Value (PyStr o) ∧ Shlex.split (gmm_line self o) = inl err ∧
     (e = ValueError "No closing quotation" ∨ e = ValueError "No escaped character") ∧
     runs st' = runs st) ∨
  (∃ o cmd output,
     arg = GMM.Value (PyStr o) ∧ Shlex.split (gmm_line self o) = inr cmd ∧
     succeeded (os cmd) (GMM.timeout self) output ∧ runs st' = runs st ++ [cmd] ∧
     ((¬ em_line output ∧ e = AttributeError "em") ∨
      (em_line output ∧ e = ValueError "could not convert string to float"))).
Proof.
  intros Hr.
  assert ((∃ o, arg = GMM.Value (PyStr o)) ∨ ∀ o, arg ≠ GMM.Value (PyStr o))
    as [[o ->]|Harg].
  { destruct arg as [[| | |o]|d]; eauto. }
  2:{ left. rewrite RunTiming_not_str in Hr by done. by injection Hr as <- <-. }
  right. destruct (Shlex.split (gmm_line self o)) as [err|cmd] eqn:Hsplit.
  { left. exists o, err. rewrite (RunTiming_split_error _ _ _ err) in Hr by done.
    injection Hr as <- <-. split_and!; [done..| |done]. destruct err; auto. }
  right. exists o, cmd.
  destruct (child_cases (os cmd) (GMM.timeout self)) as [Ht|[Hc|[output Hs]]].
  { by rewrite (RunTiming_timed_out _ _ _ cmd) in Hr. }
  { by rewrite (RunTiming_crashed _ _ _ cmd) in Hr. }
  exists output. rewrite (RunTiming_succeeded _ _ _ cmd _ output) in Hr by done.
  cbv zeta in Hr. pose proof (gmm_pattern_matches output) as Hm.
  destruct (Re.group_of_match GMM.pattern output) as [g|].
  - destruct (Float.parse g); [done|]. injection Hr as <- <-.
    split_and!; [done..|]. right. split; [|done]. by apply Hm.
  - injection Hr as <- <-. split_and!; [done..|]. left. split; [|done].
    intros [? ?]%Hm. done.
Qed.

Lemma RunTiming_exceptions_witness :
  (AttributeError "em" = TypeError ∧
   (∀ o, GMM.Value (PyStr EmptyString) ≠ GMM.Value (PyStr o)) ∧
   [["/usr/bin/gmm"; "-i"; "datasets/iris.csv"; "-v"]] = []) ∨
  (∃ o err,
     GMM.Value (PyStr EmptyString) = GMM.Value (PyStr o) ∧
     Shlex.split (gmm_line sample_gmm o) = inl err ∧
     (AttributeError "em" = ValueError "No closing quotation" ∨
      AttributeError "em" = ValueError "No escaped character") ∧
     [["/usr/bin/gmm"; "-i"; "datasets/iris.csv"; "-v"]] = []) ∨
  (∃ o cmd output,
     GMM.Value (PyStr EmptyString) = GMM.Value (PyStr o) ∧
     Shlex.split (gmm_line sample_gmm o) = inr cmd ∧
     succeeded (emitting "no timer here" cmd) (GMM.timeout sample_gmm) output ∧
     [["/usr/bin/gmm"; "-i"; "datasets/iris.csv"; "-v"]] = [] ++ [cmd] ∧
     ((¬ em_line output ∧ AttributeError "em" = AttributeError "em") ∨
      (em_line output ∧
       AttributeError "em" = ValueError "could not convert string to float"))).
Proof.
  refine (RunTiming_exceptions (emitting "no timer here") sample_gmm
    (GMM.Value (PyStr EmptyString)) (State ∅ [] [])
    (State ∅
       [LogCall Info (Msg "Perform GMM.") (Some true);
        LogCall Fatal (Msg "Can't parse the data: wrong format") None]
       [["/usr/bin/gmm"; "-i"; "datasets/iris.csv"; "-v"]])
    (AttributeError "em") _).
  vm_compute. reflexivity.
Defined.

(** X11. Once the command line is split, [RunTiming] returns a time exactly
    when the run succeeded and the text between [em:] and the next [s] is a
    numeral; the time is that number. *)
Theorem RunTiming_returns_time_iff
    (os : list string → child) (self : GMM.t) (o : string)
    (cmd : list string) (st : state) (x : Float.float) :
  Shlex.split (gmm_line self o) = inr cmd →
  returns (GMM.RunTiming os self (GMM.Value (PyStr o)) st) (GMM.Time x) ↔
  ∃ output g,
    succeeded (os cmd) (GMM.timeout self) output ∧
    Re.group_of_match GMM.pattern output = Some g ∧ Float.parse g = Some x.
Proof.
  intros Hsplit. unfold returns. split.
  - intros Hr.
    destruct (child_cases (os cmd) (GMM.timeout self)) as [Ht|[Hc|[output Hs]]].
    { by rewrite (RunTiming_timed_out _ _ _ cmd) in Hr. }
    { by rewrite (RunTiming_crashed _ _ _ cmd) in Hr. }
    rewrite (RunTiming_succeeded _ _ _ cmd _ output) in Hr by done. cbv zeta in Hr.
    exists output. destruct (Re.group_of_match GMM.pattern output) as [g|]; [|done].
    exists g. destruct (Float.parse g) as [y|]; [|done]. simpl in Hr.
    by injection Hr as ->.
  - intros (output & g & Hs & Hg & Hx).
    rewrite (RunTiming_succeeded _ _ _ cmd _ output) by done. cbv zeta.
    by rewrite Hg, Hx.
Qed.

Lemma RunTiming_returns_time_iff_witness :
  Shlex.split (gmm_line sample_gmm EmptyString)
    = inr ["/usr/bin/gmm"; "-i"; "datasets/iris.csv"; "-v"] ∧
  (returns (GMM.RunTiming (emitting "em: 0.734s") sample_gmm
              (GMM.Value (PyStr EmptyString)) (State ∅ [] [])) (GMM.Time f0_734) ↔
   ∃ output g,
     succeeded (emitting "em: 0.734s" ["/usr/bin/gmm"; "-i"; "datasets/iris.csv"; "-v"])
       (GMM.timeout sample_gmm) output ∧
     Re.group_of_match GMM.pattern output = Some g ∧ Float.parse g = Some f0_734).
Proof.
  split; [reflexivity|].
  exact (RunTiming_returns_time_iff (emitting "em: 0.734s") sample_gmm EmptyString
           ["/usr/bin/gmm"; "-i"; "datasets/iris.csv"; "-v"] (State ∅ [] []) f0_734 eq_refl).
Defined.

Lemma RunMemoryProfiling_run {A} (massif : list string → string → Q → string → M A)
    self o cmd fileName massifOptions st :
  Shlex.split (profiling_line self o) = inr cmd →
  GMM.RunMemoryProfiling massif self (GMM.Value (PyStr o)) fileName massifOptions st =
    massif cmd fileName (GMM.timeout self) (default "--depth=2" massifOptions)
      (State (options st)
         (log st ++ [LogCall Info (Msg "Perform GMM Memory Profiling.")
                       (Some (GMM.verbose self))])
         (runs st)).
Proof.
  intros Hsplit. unfold GMM.RunMemoryProfiling, bind at 1.
  unfold Log.Info, Log.call at 1. unfold bind at 1, GMM.concat, ret at 1.
  unfold bind at 1, GMM.split. unfold profiling_line in Hsplit. by rewrite Hsplit.
Qed.

(** X12. With executable paths free of blanks, quotes and backslashes, the
    timing run executes [path + "gmm"] and the profiling run hands
    [debug + "gmm"] to the profiler, both with the arguments [-i] followed by
    what [dataset + " -v " + options] splits into: the dataset name and the
    options are cut at blanks and read with shell quoting.  The profiler
    gets the object's timeout and, by default, [--depth=2]. *)
Theorem timing_and_profiling_commands
    (self : GMM.t) (o : string) (tail : list string) :
  plain (GMM.path self) = true → plain (GMM.debug self) = true →
  Shlex.split (GMM.dataset self +:+ " -v " +:+ o) = inr tail →
  (∀ os st,
     runs (GMM.RunTiming os self (GMM.Value (PyStr o)) st).2 =
       runs st ++ [(GMM.path self +:+ "gmm") :: "-i" :: tail]) ∧
  (∀ (A : Type) (massif : list string → string → Q → string → M A) fileName st,
     GMM.RunMemoryProfiling massif self (GMM.Value (PyStr o)) fileName None st =
       massif ((GMM.debug self +:+ "gmm") :: "-i" :: tail) fileName
         (GMM.timeout self) "--depth=2"
         (State (options st)
            (log st ++ [LogCall Info (Msg "Perform GMM Memory Profiling.")
                          (Some (GMM.verbose self))])
            (runs st))).
Proof.
  intros Hp Hd Htail. split.
  - intros os st. apply RunTiming_final_runs.
    unfold gmm_line. by rewrite split_gmm_line, Htail.
  - intros A massif fileName st.
    rewrite (RunMemoryProfiling_run _ _ _ ((GMM.debug self +:+ "gmm") :: "-i" :: tail));
      [done|].
    unfold profiling_line. by rewrite split_gmm_line, Htail.
Qed.

Lemma timing_and_profiling_commands_witness :
  plain (GMM.path sample_gmm) = true ∧ plain (GMM.debug sample_gmm) = true ∧
  Shlex.split (GMM.dataset sample_gmm +:+ " -v " +:+ "-g 3 -o 'out file.xml'")
    = inr ["datasets/iris.csv"; "-v"; "-g"; "3"; "-o"; "out file.xml"] ∧
  (∀ os st,
     runs (GMM.RunTiming os sample_gmm (GMM.Value (PyStr "-g 3 -o 'out file.xml'")) st).2 =
       runs st ++ [["/usr/bin/gmm"; "-i"; "datasets/iris.csv"; "-v"; "-g"; "3"; "-o";
                    "out file.xml"]]).
Proof.
  split; [reflexivity|]. split; [reflexivity|]. split; [reflexivity|].
  exact (proj1 (timing_and_profiling_commands sample_gmm "-g 3 -o 'out file.xml'"
    ["datasets/iris.csv"; "-v"; "-g"; "3"; "-o"; "out file.xml"] eq_refl eq_refl eq_refl)).
Defined.

(** * Construction and clean-up of [GMM] objects *)

Lemma help_heading_matches (k : list N → option (list N)) s :
  (∀ x, is_Some (k x)) →
  is_Some (Re.match_items (Re.after GMM.description_pattern) k s) ↔ help_heading s.
Proof.
  intros Hk. unfold GMM.description_pattern. cbn [Re.after]. split.
  - intros [r (a & b & -> & Ha & _)%match_items_sound].
    apply consumes_lit_iff in Ha as (y1 & -> & Ha).
    apply consumes_many_iff in Ha as (m & y2 & -> & _ & Ha).
    apply (consumes_lit_iff "options:" []) in Ha as (y3 & -> & ->%consumes_empty_iff).
    exists m, b. by rewrite !app_nil_r, <- !app_assoc.
  - intros (m & rest & ->).
    replace (codes "Required" ++ m ++ codes "options:" ++ rest)
      with ((codes "Required" ++ m ++ codes "options:") ++ rest)
      by (by rewrite <- !app_assoc).
    apply match_items_complete; [|done].
    apply consumes_lit_iff. eexists. split; [done|].
    apply consumes_many_iff. exists m, (codes "options:").
    split_and!; [done|apply forallb_any|].
    apply (consumes_lit_iff "options:" []). exists []. split; [done|constructor].
Qed.

Lemma description_group_spec s :
  match Re.group_of_match GMM.description_pattern s with
  | Some g =>
      ∃ b, s = g ++ b ∧ help_heading b ∧
        ∀ g' b', s = g' ++ b' → (length g' < length g)%nat → ¬ help_heading b'
  | None => ∀ g b, s = g ++ b → ¬ help_heading b
  end.
Proof.
  set (K := fun s2 : list N =>
              Re.match_items (Re.after GMM.description_pattern)
                (fun _ => Some (take (length s - length s2) s)) s2).
  change (Re.group_of_match GMM.description_pattern s)
    with (Re.lazy_star Re.any (fun s2 => K s2) s).
  assert (∀ b, is_Some (K b) ↔ help_heading b) as HK.
  { intros b. unfold K. by apply help_heading_matches. }
  destruct (Re.lazy_star Re.any (fun s2 => K s2) s) as [g|] eqn:E.
  - apply lazy_star_first in E as (a & b & -> & _ & Hb & Hmin).
    pose proof Hb as Hb'. unfold K in Hb'.
    apply match_items_sound in Hb' as (? & ? & _ & _ & [= <-]).
    rewrite length_app, Nat.add_sub, take_app_length.
    exists b. split_and!; [done|by apply HK|].
    intros g' b' Heq Hlen [r Hr]%HK. by rewrite (Hmin g' b' Heq Hlen) in Hr.
  - intros g b -> [r Hr]%HK.
    destruct (lazy_star_complete Re.any (fun s2 => K s2) g b (forallb_any g)
                (ex_intro _ r Hr)) as [r' Hr'].
    congruence.
Qed.

Lemma init_outcome os bin dbg ds t p v d cmd st :
  Shlex.split (probe_line bin p) = inr cmd →
  let self x :=
    {| GMM.verbose := default true v;
       GMM.dataset := ds;
       GMM.path := default bin p;
       GMM.timeout := default 0%Q t;
       GMM.debug := default dbg d;
       GMM.description := x |} in
  let st1 := State (options st) (log st) (runs st ++ [cmd]) in
  GMM.init os bin dbg ds t p v d st =
    match os cmd with
    | Hangs => (Blocked, st1)
    | Exits _ 0 output =>
        match Re.group_of_match GMM.description_pattern output with
        | Some g => (Ret (self (Some (GMM.DescBytes g))), st1)
        | None =>
            (Ret (self (Some (GMM.DescStr EmptyString))),
             State (options st)
               (log st ++ [LogCall Warn (Msg "Can't parse description")
                             (Some (default true v))])
               (runs st ++ [cmd]))
        end
    | _ =>
        (Ret (self None),
         State (options st)
           (log st ++ [LogCall Fatal (MsgCouldNotExecute cmd) None])
           (runs st ++ [cmd]))
    end.
Proof.
  intros Hsplit self st1. unfold probe_line in Hsplit.
  rewrite (init_probe _ _ _ _ _ _ _ _ cmd) by done. cbv zeta.
  pose proof (gmm_help_nonempty _ _ Hsplit) as Hne.
  unfold bind at 1, try_except, bind at 1, check_output.
  destruct cmd as [|c0 cmd]; [done|].
  destruct (os (c0 :: cmd)) as [|elapsed status output|]; [done| |done].
  destruct status as [|q|q]; [|done..]. simpl.
  by destruct (Re.group_of_match GMM.description_pattern output).
Qed.

(** X13. The probe of the constructor runs without a timeout, whatever
    timeout the object is given: when the probed executable never ends,
    the constructor never returns. *)
Theorem init_blocks_on_hanging_probe
    (os : list string → child) (mlpack_bin mlpack_bin_debug dataset : string)
    (timeout : option Q) (path : option string) (verbose : option bool)
    (debug : option string) (cmd : list string) (st : state) :
  Shlex.split (probe_line mlpack_bin path) = inr cmd →
  os cmd = Hangs →
  GMM.init os mlpack_bin mlpack_bin_debug dataset timeout path verbose debug st =
    (Blocked, State (options st) (log st) (runs st ++ [cmd])).
Proof.
  intros Hsplit Hos. rewrite (init_outcome _ _ _ _ _ _ _ _ cmd) by done.
  cbv zeta. by rewrite Hos.
Qed.

Lemma init_blocks_on_hanging_probe_witness :
  Shlex.split (probe_line "/usr/bin/" None) = inr ["/usr/bin/gmm"; "-h"] ∧
  GMM.init (fun _ => Hangs) "/usr/bin/" "/usr/bin/debug/" "datasets/iris.csv"
    (Some 240%Q) None None None (State ∅ [] []) =
    (Blocked, State ∅ [] [["/usr/bin/gmm"; "-h"]]).
Proof.
  split; [reflexivity|].
  exact (init_blocks_on_hanging_probe (fun _ => Hangs) "/usr/bin/" "/usr/bin/debug/"
           "datasets/iris.csv" (Some 240%Q) None None None ["/usr/bin/gmm"; "-h"]
           (State ∅ [] []) eq_refl eq_refl).
Defined.

(** X14. The constructor raises only when the path of the executable has an
    open quote or a trailing backslash, and then before running anything;
    with a path free of quotes and backslashes it never raises. *)
Theorem init_raises_only_for_unbalanced_path
    (os : list string → child) (mlpack_bin mlpack_bin_debug dataset : string)
    (timeout : option Q) (path : option string) (verbose : option bool)
    (debug : option string) (st : state) :
  (∀ e st',
     GMM.init os mlpack_bin mlpack_bin_debug dataset timeout path verbose debug st
       = (Raise e, st') →
     st' = st ∧ ∃ err, Shlex.split (probe_line mlpack_bin path) = inl err ∧
       (e = ValueError "No closing quotation" ∨ e = ValueError "No escaped character")) ∧
  (unquoted (default mlpack_bin path) = true →
   ∀ e st',
     GMM.init os mlpack_bin mlpack_bin_debug dataset timeout path verbose debug st
       ≠ (Raise e, st')).
Proof.
  assert (∀ e st',
     GMM.init os mlpack_bin mlpack_bin_debug dataset timeout path verbose debug st
       = (Raise e, st') →
     st' = st ∧ ∃ err, Shlex.split (probe_line mlpack_bin path) = inl err ∧
       (e = ValueError "No closing quotation" ∨ e = ValueError "No escaped character"))
    as Hraise.
  { intros e st' Hr.
    destruct (Shlex.split (probe_line mlpack_bin path)) as [err|cmd] eqn:Hsplit.
    - unfold GMM.init, bind at 1, GMM.split in Hr. unfold probe_line in Hsplit.
      rewrite Hsplit in Hr. destruct err; injection Hr as <- <-; eauto.
    - rewrite (init_outcome _ _ _ _ _ _ _ _ cmd) in Hr by done. cbv zeta in Hr.
      destruct (os cmd) as [|elapsed [|q|q] output|]; try done.
      by destruct (Re.group_of_match GMM.description_pattern output). }
  split; [exact Hraise|].
  intros Hu e st' (_ & err & Hsplit & _)%Hraise.
  destruct (tokens_unquoted Shlex.Between EmptyString false [] (probe_line mlpack_bin path))
    as [cmd Hcmd].
  - unfold probe_line. by rewrite unquoted_app, Hu.
  - by left.
  - unfold Shlex.split in Hsplit. congruence.
Qed.

Lemma init_raises_only_for_unbalanced_path_witness :
  GMM.init sample_mlpack "/opt/ml'pack/" "/usr/bin/debug/" "datasets/iris.csv"
    None None None None (State ∅ [] [])
    = (Raise (ValueError "No closing quotation"), State ∅ [] []) ∧
  State ∅ [] [] = State ∅ [] [] ∧
  ∃ err, Shlex.split (probe_line "/opt/ml'pack/" None) = inl err ∧
    (ValueError "No closing quotation" = ValueError "No closing quotation" ∨
     ValueError "No closing quotation" = ValueError "No escaped character").
Proof.
  assert (GMM.init sample_mlpack "/opt/ml'pack/" "/usr/bin/debug/" "datasets/iris.csv"
            None None None None (State ∅ [] [])
          = (Raise (ValueError "No closing quotation"), State ∅ [] [])) as H
    by (vm_compute; reflexivity).
  split; [exact H|].
  exact (proj1 (init_raises_only_for_unbalanced_path sample_mlpack "/opt/ml'pack/"
    "/usr/bin/debug/" "datasets/iris.csv" None None None None (State ∅ [] [])) _ _ H).
Defined.

(** X15. What the constructor stores.  The five settings are the arguments
    (or their defaults), and exactly one command, the probe, has been run.
    The description is not set when the probe could not be started or ended
    with a non-zero status; it is the empty [str] when no part of the help
    text reads [Required ... options:]; otherwise it is the help text up to
    the first [Required] that an [options:] follows. *)
Theorem init_description
    (os : list string → child) (mlpack_bin mlpack_bin_debug dataset : string)
    (timeout : option Q) (path : option string) (verbose : option bool)
    (debug : option string) (st st' : state) (self : GMM.t) :
  GMM.init os mlpack_bin mlpack_bin_debug dataset timeout path verbose debug st
    = (Ret self, st') →
  GMM.verbose self = default true verbose ∧ GMM.dataset self = dataset ∧
  GMM.path self = default mlpack_bin path ∧ GMM.timeout self = default 0%Q timeout ∧
  GMM.debug self = default mlpack_bin_debug debug ∧
  ∃ cmd,
    Shlex.split (probe_line mlpack_bin path) = inr cmd ∧ runs st' = runs st ++ [cmd] ∧
    match GMM.description self with
    | None =>
        os cmd = NotStarted ∨
        ∃ elapsed status output, os cmd = Exits elapsed status output ∧ status ≠ 0
    | Some (GMM.DescStr d) =>
        d = EmptyString ∧
        ∃ elapsed output, os cmd = Exits elapsed 0 output ∧
          ∀ g b, output = g ++ b → ¬ help_heading b
    | Some (GMM.DescBytes g) =>
        ∃ elapsed output b, os cmd = Exits elapsed 0 output ∧
          output = g ++ b ∧ help_heading b ∧
          ∀ g' b', output = g' ++ b' → (length g' < length g)%nat → ¬ help_heading b'
    end.
Proof.
  intros Hr.
  destruct (Shlex.split (probe_line mlpack_bin path)) as [err|cmd] eqn:Hsplit.
  { unfold GMM.init, bind at 1, GMM.split in Hr. unfold probe_line in Hsplit.
    rewrite Hsplit in Hr. by destruct err. }
  rewrite (init_outcome _ _ _ _ _ _ _ _ cmd) in Hr by done. cbv zeta in Hr.
  destruct (os cmd) as [|elapsed status output|] eqn:Hos; [| |done].
  - injection Hr as <- <-. split_and!; try done. exists cmd. split_and!; try done.
    by left.
  - destruct status as [|q|q].
    + pose proof (description_group_spec output) as Hspec.
      destruct (Re.group_of_match GMM.description_pattern output) as [g|];
        injection Hr as <- <-; (split_and!; try done); exists cmd;
        (split_and!; try done); simpl.
      * destruct Hspec as (b & ? & ? & ?). by exists elapsed, output, b.
      * split; [done|]. by exists elapsed, output.
    + injection Hr as <- <-. split_and!; try done. exists cmd. split_and!; try done.
      right. by exists elapsed, (Z.pos q), output.
    + injection Hr as <- <-. split_and!; try done. exists cmd. split_and!; try done.
      right. by exists elapsed, (Z.neg q), output.
Qed.

Lemma init_description_witness :
  GMM.verbose (sample_gmm_with (Some (GMM.DescBytes (codes "Gaussian Mixture Model. "))))
    = default true None ∧
  GMM.dataset (sample_gmm_with (Some (GMM.DescBytes (codes "Gaussian Mixture Model. "))))
    = "datasets/iris.csv" ∧
  GMM.path (sample_gmm_with (Some (GMM.DescBytes (codes "Gaussian Mixture Model. "))))
    = default "/usr/bin/" None ∧
  GMM.timeout (sample_gmm_with (Some (GMM.DescBytes (codes "Gaussian Mixture Model. "))))
    = default 0%Q (Some 240%Q) ∧
  GMM.debug (sample_gmm_with (Some (GMM.DescBytes (codes "Gaussian Mixture Model. "))))
    = default "/usr/bin/debug/" None ∧
  ∃ cmd,
    Shlex.split (probe_line "/usr/bin/" None) = inr cmd ∧
    [["/usr/bin/gmm"; "-h"]] = [] ++ [cmd] ∧
    ∃ elapsed output b, sample_mlpack cmd = Exits elapsed 0 output ∧
      output = codes "Gaussian Mixture Model. " ++ b ∧ help_heading b ∧
      ∀ g' b', output = g' ++ b' →
        (length g' < length (codes "Gaussian Mixture Model. "))%nat → ¬ help_heading b'.
Proof.
  refine (init_description sample_mlpack "/usr/bin/" "/usr/bin/debug/"
    "datasets/iris.csv" (Some 240%Q) None None None (State ∅ [] [])
    (State ∅ [] [["/usr/bin/gmm"; "-h"]])
    (sample_gmm_with (Some (GMM.DescBytes (codes "Gaussian Mixture Model. ")))) _).
  vm_compute. reflexivity.
Defined.

Lemma remove_files_spec filelist fs :
  (∀ f, f ∈ filelist → fs !! f ≠ Some (Os.Regular false)) →
  ∃ fs',
    GMM.remove_files filelist fs = (Ret tt, fs') ∧
    ∀ f, fs' !! f =
           if bool_decide (f ∈ filelist) && Os.isfile fs f then None else fs !! f.
Proof.
  revert fs. induction filelist as [|f0 l IH]; intros fs Hok; cbn [GMM.remove_files].
  - exists fs. split; [done|]. intros f.
    by rewrite bool_decide_eq_false_2 by apply not_elem_of_nil.
  - assert (fs !! f0 ≠ Some (Os.Regular false)) as H0 by (apply Hok; left).
    assert (∀ fs1,
      (∀ f, f ≠ f0 → fs1 !! f = fs !! f) →
      (Os.isfile fs f0 = true ∧ fs1 !! f0 = None ∨
       Os.isfile fs f0 = false ∧ fs1 !! f0 = fs !! f0) →
      ∃ fs', GMM.remove_files l fs1 = (Ret tt, fs') ∧
        ∀ f, fs' !! f =
          if bool_decide (f ∈ f0 :: l) && Os.isfile fs f then None else fs !! f) as Hstep.
    { intros fs1 Hother Hf0.
      destruct (IH fs1) as (fs' & Hrun & Hfs').
      { intros f Hf. destruct (decide (f = f0)) as [->|Hne].
        - destruct Hf0 as [[_ ->]|[_ ->]]; done.
        - rewrite Hother by done. apply Hok. by right. }
      exists fs'. split; [done|]. intros f. rewrite Hfs'.
      destruct (decide (f = f0)) as [->|Hne].
      - rewrite (bool_decide_eq_true_2 (f0 ∈ f0 :: l)) by left. simpl.
        destruct Hf0 as [[E1 E2]|[E1 E2]]; rewrite E1.
        + rewrite E2. by destruct (_ && _).
        + assert (Os.isfile fs1 f0 = false) as -> by (unfold Os.isfile in *; by rewrite E2).
          by rewrite andb_false_r.
      - unfold Os.isfile. rewrite Hother by done.
        destruct (decide (f ∈ l)) as [Hin|Hout].
        + by rewrite !bool_decide_eq_true_2 by (done || by right).
        + rewrite !bool_decide_eq_false_2; [done| |done].
          by intros [?|?]%elem_of_cons. }
    destruct (Os.isfile fs f0) eqn:Ef0.
    + unfold Os.remove. unfold Os.isfile in Ef0.
      destruct (fs !! f0) as [[[]|]|] eqn:E0; try done.
      apply Hstep.
      * intros f Hne. by rewrite lookup_delete_ne.
      * left. split; [done|]. apply lookup_delete_eq.
    + apply Hstep; [done|by right].
Qed.

Lemma remove_files_frame filelist fs f :
  f ∉ filelist ∨ Os.isfile fs f = false →
  (GMM.remove_files filelist fs).2 !! f = fs !! f.
Proof.
  revert fs. induction filelist as [|f0 l IH]; intros fs Hf; simpl; [done|].
  assert (f ∉ l ∨ Os.isfile fs f = false) as Hf'.
  { destruct Hf as [Hf|Hf]; [|by right]. left. intros ?. apply Hf. by right. }
  destruct (Os.isfile fs f0) eqn:Ef0; [|by apply IH].
  unfold Os.remove. destruct (fs !! f0) as [[[]|]|] eqn:E0; try done.
  assert (f ≠ f0) as Hne.
  { intros ->. destruct Hf as [Hf|Hf]; [apply Hf; left|congruence]. }
  rewrite IH.
  - by rewrite lookup_delete_ne.
  - destruct Hf' as [?|Hf']; [by left|right].
    unfold Os.isfile in *. by rewrite lookup_delete_ne.
Qed.

(** X16. When neither [gmon.out] nor [gmm.xml] is a file that may not be
    removed, [__del__] does not raise and leaves a directory in which
    neither name is a file; every other entry, and a directory of one of
    the two names, is as before.  One message is logged. *)
Theorem del_removes_artifacts
    (self : GMM.t) (fs : gmap string Os.node) (st : state) :
  fs !! "gmon.out" ≠ Some (Os.Regular false) →
  fs !! "gmm.xml" ≠ Some (Os.Regular false) →
  ∃ fs',
    GMM.del self fs st =
      (Ret tt, fs',
       State (options st)
         (log st ++ [LogCall Info (Msg "Clean up.") (Some (GMM.verbose self))])
         (runs st)) ∧
    Os.isfile fs' "gmon.out" = false ∧ Os.isfile fs' "gmm.xml" = false ∧
    ∀ f, (f ≠ "gmon.out" ∧ f ≠ "gmm.xml") ∨ Os.isfile fs f = false →
         fs' !! f = fs !! f.
Proof.
  intros H1 H2.
  destruct (remove_files_spec ["gmon.out"; "gmm.xml"] fs) as (fs' & Hrun & Hfs').
  { intros f [->|[->|[]%elem_of_nil]%elem_of_cons]%elem_of_cons; done. }
  exists fs'. unfold GMM.del, Log.Info, Log.call. cbv beta iota. rewrite Hrun.
  split_and!; [done| | |].
  - unfold Os.isfile at 1. rewrite Hfs'. simpl.
    unfold Os.isfile. by destruct (fs !! "gmon.out") as [[]|].
  - unfold Os.isfile at 1. rewrite Hfs'. simpl.
    unfold Os.isfile. by destruct (fs !! "gmm.xml") as [[]|].
  - intros f Hf. rewrite Hfs'. destruct Hf as [[Hf1 Hf2]|Hf].
    + rewrite bool_decide_eq_false_2; [done|].
      by intros [->|[->|[]%elem_of_nil]%elem_of_cons]%elem_of_cons.
    + by rewrite Hf, andb_false_r.
Qed.

Lemma del_removes_artifacts_witness :
  ({["gmon.out" := Os.Regular true; "gmm.xml" := Os.Directory;
     "datasets" := Os.Directory]} : gmap string Os.node) !! "gmon.out"
    ≠ Some (Os.Regular false) ∧
  ({["gmon.out" := Os.Regular true; "gmm.xml" := Os.Directory;
     "datasets" := Os.Directory]} : gmap string Os.node) !! "gmm.xml"
    ≠ Some (Os.Regular false) ∧
  ∃ fs',
    GMM.del sample_gmm
      {["gmon.out" := Os.Regular true; "gmm.xml" := Os.Directory;
        "datasets" := Os.Directory]} (State ∅ [] []) =
      (Ret tt, fs',
       State ∅ ([] ++ [LogCall Info (Msg "Clean up.") (Some (GMM.verbose sample_gmm))]) []) ∧
    Os.isfile fs' "gmon.out" = false ∧ Os.isfile fs' "gmm.xml" = false ∧
    ∀ f, (f ≠ "gmon.out" ∧ f ≠ "gmm.xml") ∨
         Os.isfile {["gmon.out" := Os.Regular true; "gmm.xml" := Os.Directory;
                     "datasets" := Os.Directory]} f = false →
         fs' !! f =
           ({["gmon.out" := Os.Regular true; "gmm.xml" := Os.Directory;
              "datasets" := Os.Directory]} : gmap string Os.node) !! f.
Proof.
  split; [by vm_compute|]. split; [by vm_compute|].
  refine (del_removes_artifacts sample_gmm _ (State ∅ [] []) _ _); by vm_compute.
Defined.

(** X17. The body of [__del__] raises exactly when [gmon.out] or [gmm.xml]
    is a file that may not be removed.  A failure on [gmon.out] leaves the
    directory as it was, [gmm.xml] included.  In no case is an entry other
    than a file of those two names touched.  (The interpreter reports and
    drops an exception of a finalizer it runs itself; a direct call of
    [__del__] raises it.) *)
Theorem del_failure
    (self : GMM.t) (fs : gmap string Os.node) (st : state) :
  ((∃ e, (GMM.del self fs st).1.1 = Raise e) ↔
     fs !! "gmon.out" = Some (Os.Regular false) ∨
     fs !! "gmm.xml" = Some (Os.Regular false)) ∧
  (fs !! "gmon.out" = Some (Os.Regular false) →
   (GMM.del self fs st).1 = (Raise OSError, fs)) ∧
  (∀ f, (f ≠ "gmon.out" ∧ f ≠ "gmm.xml") ∨ Os.isfile fs f = false →
        (GMM.del self fs st).1.2 !! f = fs !! f).
Proof.
  split_and!.
  - unfold GMM.del. simpl. unfold Os.isfile, Os.remove.
    destruct (fs !! "gmon.out") as [[[]|]|] eqn:E1;
      rewrite ?lookup_delete_ne by done;
      destruct (fs !! "gmm.xml") as [[[]|]|] eqn:E2; simpl;
      split; try (by intros [? ?]); try (by intros [?|?]); eauto.
  - intros E1. unfold GMM.del. simpl. unfold Os.isfile, Os.remove. by rewrite E1.
  - intros f Hf. unfold GMM.del. simpl Log.Info. cbv iota beta.
    change ((GMM.remove_files ["gmon.out"; "gmm.xml"] fs, ?s).1.2)
      with (GMM.remove_files ["gmon.out"; "gmm.xml"] fs).2.
    apply remove_files_frame. destruct Hf as [[Hf1 Hf2]|Hf]; [left|by right].
    by intros [->|[->|[]%elem_of_nil]%elem_of_cons]%elem_of_cons.
Qed.

Lemma del_failure_witness :
  ({["gmon.out" := Os.Regular false; "gmm.xml" := Os.Regular true]}
     : gmap string Os.node) !! "gmon.out" = Some (Os.Regular false) ∧
  (GMM.del sample_gmm {["gmon.out" := Os.Regular false; "gmm.xml" := Os.Regular true]}
     (State ∅ [] [])).1 =
    (Raise OSError, {["gmon.out" := Os.Regular false; "gmm.xml" := Os.Regular true]}).
Proof.
  assert (({["gmon.out" := Os.Regular false; "gmm.xml" := Os.Regular true]}
     : gmap string Os.node) !! "gmon.out" = Some (Os.Regular false)) as H
    by (by vm_compute).
  split; [exact H|].
  exact (proj1 (proj2 (del_failure sample_gmm
    {["gmon.out" := Os.Regular false; "gmm.xml" := Os.Regular true]} (State ∅ [] []))) H).
Defined.

Lemma RunMetrics_returns_metrics_witness :
  dom (options (State {["new_dimensionality" := PyInt 2]} [] [])) ⊆ recognized ∧
  ((∃ m, returns (PCA.RunMetrics (emitting "datasource.load: 1500 ms") sample_pca
                    (State {["new_dimensionality" := PyInt 2]} [] [])) (PCA.Metrics m)) ↔
   (∃ output s,
      succeeded (emitting "datasource.load: 1500 ms"
                   (pca_command sample_pca {["new_dimensionality" := PyInt 2]}))
        (PCA.timeout sample_pca) output ∧
      Unicode.decode output = Some s)).
Proof.
  assert (dom (options (State {["new_dimensionality" := PyInt 2]} [] [])) ⊆ recognized)
    as H by decide_by_computation.
  split; [exact H|].
  exact (RunMetrics_returns_metrics (emitting "datasource.load: 1500 ms") sample_pca
           (State {["new_dimensionality" := PyInt 2]} [] []) H).
Defined.
